(** * PromptsGrid: a shallow embedding of the prompt grid component

    The repository holds two versions of one React component:

    - [src/app/prompts/_components/prompts-grid.tsx], embedded below as
      module [Placeholder] (its delete button only logs), and
    - the later version with the delete confirmation flow, the copy
      handler with a legacy fallback and toasts, embedded as module
      [Wired].

    React state is a record with one field per [useState] cell.  A handler
    is a function on the world (component state plus the browser around
    it).  An [async] handler is cut at its [await]: it returns the world
    after its synchronous prefix together with the collaborator call it
    waits for and the continuation that runs when the call settles.  The
    continuation takes the world as it is at that later moment, since other
    handlers may have run in between; values a handler reads from its
    closure ([editingId], [formData], [promptToDelete]) are fixed when the
    handler starts.

    Not modelled: console output, class names and animation, focus and text
    selection, and the dialogs' own markup. *)

From Stdlib Require Import ZArith String.
From stdpp Require Import base decidable option list numbers.

Open Scope Z_scope.
Open Scope string_scope.

Notation "w |> f" := (f w) (at level 45, left associativity, only parsing).

(** ** Data model *)

(** [interface Prompt { id: number; name: string; description: string;
    content: string; }] *)
Module Prompt.
Record t := mk { id : Z; name : string; description : string; content : string }.
End Prompt.

(** The form draft, [{ name: string; description: string; content: string }]. *)
Module FormData.
Record t := mk { name : string; description : string; content : string }.
End FormData.

(** The [name] attribute of the three form inputs. *)
Inductive InputName := input_name | input_description | input_content.

(** ** Collaborators and asynchronous handlers *)

(** A value caught by [catch (err)]: the handlers only ask whether it is an
    [Error] instance and, if so, read its [message]. *)
Inductive Thrown :=
| ErrorInstance (message : string)
| NotAnError.

(** How an awaited promise settles. *)
Inductive Settled (A : Type) :=
| Fulfilled (v : A)
| Rejected (err : Thrown).
Arguments Fulfilled {A} v.
Arguments Rejected {A} err.

(** The calls a handler awaits, indexed by the type of their result. *)
Inductive Collaborator : Type -> Type :=
| updatePrompt (id : Z) (data : FormData.t) : Collaborator Prompt.t
| createPrompt (data : FormData.t) : Collaborator Prompt.t
| deletePrompt (id : Z) : Collaborator unit
| clipboard_writeText (text : string) : Collaborator unit.

(** One run of a handler over worlds of type [W]. *)
Inductive Step (W : Type) :=
| Done (w : W)
| Await {A : Type} (w : W) (call : Collaborator A) (k : Settled A -> W -> W).
Arguments Done {W} w.
Arguments Await {W A} w call k.

(** The handler runs and its call settles at once, nothing in between. *)
Definition settle_now {W} (answer : forall A, Collaborator A -> Settled A)
    (s : Step W) : W :=
  match s with
  | Done w => w
  | Await w call k => k (answer _ call) w
  end.

Definition all_rejected (err : Thrown) : forall A, Collaborator A -> Settled A :=
  fun A _ => Rejected err.

(** ** The browser *)

Inductive ToastVariant := variant_default | variant_destructive.

Record Toast := {
  variant : ToastVariant;
  title : string;
  toast_description : string;
  duration : option Z
}.

(** A DOM element as far as the copy fallback touches it. *)
Record Element := {
  node : nat;                       (* identity of the object *)
  tagName : string;
  value : string;
  style : list (string * string)
}.

(** What [document.execCommand('copy')] does. *)
Inductive ExecOutcome := exec_true | exec_false | exec_throws.

Record Browser := {
  now : Z;                          (* clock, in milliseconds *)
  timers : list Z;                  (* due times of the pending timeouts; the
                                       only callback ever registered is
                                       [() => setCopiedId(null)] *)
  navigator_clipboard : bool;       (* is [navigator.clipboard] there *)
  execCommand_copy : ExecOutcome;
  toasts : list Toast;              (* toasts shown so far, oldest first *)
  body : list Element;              (* children of [document.body] *)
  next_node : nat                   (* next fresh element identity *)
}.

Definition set_now (t : Z) (b : Browser) : Browser :=
  {| now := t; timers := timers b; navigator_clipboard := navigator_clipboard b;
     execCommand_copy := execCommand_copy b; toasts := toasts b; body := body b;
     next_node := next_node b |}.

Definition set_timers (ts : list Z) (b : Browser) : Browser :=
  {| now := now b; timers := ts; navigator_clipboard := navigator_clipboard b;
     execCommand_copy := execCommand_copy b; toasts := toasts b; body := body b;
     next_node := next_node b |}.

Definition set_toasts (ts : list Toast) (b : Browser) : Browser :=
  {| now := now b; timers := timers b; navigator_clipboard := navigator_clipboard b;
     execCommand_copy := execCommand_copy b; toasts := ts; body := body b;
     next_node := next_node b |}.

Definition set_body (els : list Element) (b : Browser) : Browser :=
  {| now := now b; timers := timers b; navigator_clipboard := navigator_clipboard b;
     execCommand_copy := execCommand_copy b; toasts := toasts b; body := els;
     next_node := next_node b |}.

Definition set_next_node (n : nat) (b : Browser) : Browser :=
  {| now := now b; timers := timers b; navigator_clipboard := navigator_clipboard b;
     execCommand_copy := execCommand_copy b; toasts := toasts b; body := body b;
     next_node := n |}.

(** [setTimeout(cb, delay)]: the callback becomes due [delay] ms from now. *)
Definition browser_setTimeout (delay : Z) (b : Browser) : Browser :=
  set_timers (timers b ++ [now b + delay]) b.

(** [toast({...})] *)
Definition browser_toast (t : Toast) (b : Browser) : Browser :=
  set_toasts (toasts b ++ [t]) b.

(** [document.createElement(tag)]: a fresh, detached element. *)
Definition browser_createElement (tag : string) (b : Browser) : Element * Browser :=
  ({| node := next_node b; tagName := tag; value := ""; style := [] |},
   set_next_node (S (next_node b)) b).

(** [document.body.appendChild(el)] *)
Definition browser_appendChild (el : Element) (b : Browser) : Browser :=
  set_body (body b ++ [el]) b.

(** [document.body.removeChild(el)]: children are told apart by identity. *)
Definition browser_removeChild (el : Element) (b : Browser) : Browser :=
  set_body (filter (fun c => node c <> node el) (body b)) b.

(** Every child of the body was created before: its identity is below the
    next fresh one. *)
Definition body_allocated (b : Browser) : Prop :=
  Forall (fun c => (node c < next_node b)%nat) (body b).

(** The delay of the "copied" indicator, the literal [2000] of both files. *)
Definition COPIED_RESET_DELAY : Z := 2000.

(** Timeouts that are due at time [t], and those still pending then. *)
Definition due_by (t : Z) (ts : list Z) : list Z := filter (fun d => d <= t) ts.
Definition pending_after (t : Z) (ts : list Z) : list Z := filter (fun d => t < d) ts.

(** ** The version with the delete flow (the later file) *)

Module Wired.

(** One field per [useState] cell of [PromptsGrid]. *)
Record State := {
  prompts : list Prompt.t;
  copiedId : option Z;
  hoveredDeleteId : option Z;
  isFormOpen : bool;
  formData : FormData.t;
  isSubmitting : bool;
  error : option string;
  deleteDialogOpen : bool;
  promptToDelete : option Z;
  isDeleting : bool;
  editingId : option Z
}.

Record World := { ui : State; env : Browser }.

Definition on_ui (f : State -> State) (w : World) : World :=
  {| ui := f (ui w); env := env w |}.
Definition on_env (f : Browser -> Browser) (w : World) : World :=
  {| ui := ui w; env := f (env w) |}.

(** [useState(initialPrompts)] and the other initial values. *)
Definition initialState (initialPrompts : list Prompt.t) : State :=
  {| prompts := initialPrompts; copiedId := None; hoveredDeleteId := None;
     isFormOpen := false; formData := FormData.mk "" "" "";
     isSubmitting := false; error := None; deleteDialogOpen := false;
     promptToDelete := None; isDeleting := false; editingId := None |}.

(** *** State setters *)

(** [setPrompts] is only ever called with an updater function. *)
Definition setPrompts (f : list Prompt.t -> list Prompt.t) : World -> World :=
  on_ui (fun s =>
    {| prompts := f (prompts s); copiedId := copiedId s;
       hoveredDeleteId := hoveredDeleteId s; isFormOpen := isFormOpen s;
       formData := formData s; isSubmitting := isSubmitting s; error := error s;
       deleteDialogOpen := deleteDialogOpen s; promptToDelete := promptToDelete s;
       isDeleting := isDeleting s; editingId := editingId s |}).

Definition setCopiedId (v : option Z) : World -> World :=
  on_ui (fun s =>
    {| prompts := prompts s; copiedId := v;
       hoveredDeleteId := hoveredDeleteId s; isFormOpen := isFormOpen s;
       formData := formData s; isSubmitting := isSubmitting s; error := error s;
       deleteDialogOpen := deleteDialogOpen s; promptToDelete := promptToDelete s;
       isDeleting := isDeleting s; editingId := editingId s |}).

Definition setHoveredDeleteId (v : option Z) : World -> World :=
  on_ui (fun s =>
    {| prompts := prompts s; copiedId := copiedId s;
       hoveredDeleteId := v; isFormOpen := isFormOpen s;
       formData := formData s; isSubmitting := isSubmitting s; error := error s;
       deleteDialogOpen := deleteDialogOpen s; promptToDelete := promptToDelete s;
       isDeleting := isDeleting s; editingId := editingId s |}).

Definition setIsFormOpen (v : bool) : World -> World :=
  on_ui (fun s =>
    {| prompts := prompts s; copiedId := copiedId s;
       hoveredDeleteId := hoveredDeleteId s; isFormOpen := v;
       formData := formData s; isSubmitting := isSubmitting s; error := error s;
       deleteDialogOpen := deleteDialogOpen s; promptToDelete := promptToDelete s;
       isDeleting := isDeleting s; editingId := editingId s |}).

(** [setFormData] takes a value or, in [handleInputChange], an updater;
    the value form is [setFormData (fun _ => v)]. *)
Definition setFormData (f : FormData.t -> FormData.t) : World -> World :=
  on_ui (fun s =>
    {| prompts := prompts s; copiedId := copiedId s;
       hoveredDeleteId := hoveredDeleteId s; isFormOpen := isFormOpen s;
       formData := f (formData s); isSubmitting := isSubmitting s; error := error s;
       deleteDialogOpen := deleteDialogOpen s; promptToDelete := promptToDelete s;
       isDeleting := isDeleting s; editingId := editingId s |}).

Definition setIsSubmitting (v : bool) : World -> World :=
  on_ui (fun s =>
    {| prompts := prompts s; copiedId := copiedId s;
       hoveredDeleteId := hoveredDeleteId s; isFormOpen := isFormOpen s;
       formData := formData s; isSubmitting := v; error := error s;
       deleteDialogOpen := deleteDialogOpen s; promptToDelete := promptToDelete s;
       isDeleting := isDeleting s; editingId := editingId s |}).

Definition setError (v : option string) : World -> World :=
  on_ui (fun s =>
    {| prompts := prompts s; copiedId := copiedId s;
       hoveredDeleteId := hoveredDeleteId s; isFormOpen := isFormOpen s;
       formData := formData s; isSubmitting := isSubmitting s; error := v;
       deleteDialogOpen := deleteDialogOpen s; promptToDelete := promptToDelete s;
       isDeleting := isDeleting s; editingId := editingId s |}).

Definition setDeleteDialogOpen (v : bool) : World -> World :=
  on_ui (fun s =>
    {| prompts := prompts s; copiedId := copiedId s;
       hoveredDeleteId := hoveredDeleteId s; isFormOpen := isFormOpen s;
       formData := formData s; isSubmitting := isSubmitting s; error := error s;
       deleteDialogOpen := v; promptToDelete := promptToDelete s;
       isDeleting := isDeleting s; editingId := editingId s |}).

Definition setPromptToDelete (v : option Z) : World -> World :=
  on_ui (fun s =>
    {| prompts := prompts s; copiedId := copiedId s;
       hoveredDeleteId := hoveredDeleteId s; isFormOpen := isFormOpen s;
       formData := formData s; isSubmitting := isSubmitting s; error := error s;
       deleteDialogOpen := deleteDialogOpen s; promptToDelete := v;
       isDeleting := isDeleting s; editingId := editingId s |}).

Definition setIsDeleting (v : bool) : World -> World :=
  on_ui (fun s =>
    {| prompts := prompts s; copiedId := copiedId s;
       hoveredDeleteId := hoveredDeleteId s; isFormOpen := isFormOpen s;
       formData := formData s; isSubmitting := isSubmitting s; error := error s;
       deleteDialogOpen := deleteDialogOpen s; promptToDelete := promptToDelete s;
       isDeleting := v; editingId := editingId s |}).

Definition setEditingId (v : option Z) : World -> World :=
  on_ui (fun s =>
    {| prompts := prompts s; copiedId := copiedId s;
       hoveredDeleteId := hoveredDeleteId s; isFormOpen := isFormOpen s;
       formData := formData s; isSubmitting := isSubmitting s; error := error s;
       deleteDialogOpen := deleteDialogOpen s; promptToDelete := promptToDelete s;
       isDeleting := isDeleting s; editingId := v |}).

(** *** Browser effects lifted to the world *)

Definition toast (t : Toast) : World -> World := on_env (browser_toast t).
Definition setTimeout (delay : Z) : World -> World := on_env (browser_setTimeout delay).
Definition appendChild (el : Element) : World -> World := on_env (browser_appendChild el).
Definition removeChild (el : Element) : World -> World := on_env (browser_removeChild el).
Definition createElement (tag : string) (w : World) : Element * World :=
  let '(el, b) := browser_createElement tag (env w) in (el, {| ui := ui w; env := b |}).

(** The clock reaches [t]: every timeout due by then runs its callback
    [() => setCopiedId(null)] and leaves the queue. *)
Definition run_timers_until (t : Z) (w : World) : World :=
  fold_left (fun w' _ => setCopiedId None w') (due_by t (timers (env w))) w
    |> on_env (set_timers (pending_after t (timers (env w))))
    |> on_env (set_now t).

(** [dt] milliseconds pass with no user event. *)
Definition elapse (dt : Z) (w : World) : World :=
  run_timers_until (now (env w) + dt) w.

(** *** Form handlers *)

(** [handleInputChange]: [setFormData((prevData) => ({ ...prevData, [name]: value }))] *)
Definition handleInputChange (name : InputName) (value : string) : World -> World :=
  setFormData (fun prevData =>
    match name with
    | input_name =>
        FormData.mk value (FormData.description prevData) (FormData.content prevData)
    | input_description =>
        FormData.mk (FormData.name prevData) value (FormData.content prevData)
    | input_content =>
        FormData.mk (FormData.name prevData) (FormData.description prevData) value
    end).

Definition handleEditClick (promptToEdit : Prompt.t) (w : World) : World :=
  w |> setEditingId (Some (Prompt.id promptToEdit))
    |> setFormData (fun _ =>
         FormData.mk (Prompt.name promptToEdit) (Prompt.description promptToEdit)
                     (Prompt.content promptToEdit))
    |> setError None
    |> setIsFormOpen true.

Definition resetAndCloseForm (w : World) : World :=
  w |> setIsFormOpen false
    |> setFormData (fun _ => FormData.mk "" "" "")
    |> setError None
    |> setIsSubmitting false
    |> setEditingId None.

(** The [catch] block of [handleSubmit]. *)
Definition handleSubmit_catch (err : Thrown) (w : World) : World :=
  w |> setError (Some match err with
                      | ErrorInstance message => message
                      | NotAnError => "Failed to save prompt."
                      end)
    |> setIsSubmitting false.

Definition handleSubmit (w : World) : Step World :=
  let editingId := editingId (ui w) in
  let formData := formData (ui w) in
  let w := w |> setIsSubmitting true |> setError None in
  match editingId with
  | Some editingId =>
      Await w (updatePrompt editingId formData) (fun settled w =>
        match settled with
        | Fulfilled updatedPrompt =>
            w |> setPrompts (fun prevPrompts =>
                   (fun p => if decide (Prompt.id p = editingId)
                             then updatedPrompt else p) <$> prevPrompts)
              |> resetAndCloseForm
        | Rejected err => handleSubmit_catch err w
        end)
  | None =>
      Await w (createPrompt formData) (fun settled w =>
        match settled with
        | Fulfilled newPrompt =>
            w |> setPrompts (fun prevPrompts => newPrompt :: prevPrompts)
              |> resetAndCloseForm
        | Rejected err => handleSubmit_catch err w
        end)
  end.

(** *** Delete flow *)

Definition handleDeleteClick (promptId : Z) (w : World) : World :=
  w |> setPromptToDelete (Some promptId) |> setDeleteDialogOpen true.

(** The [finally] block of [handleDeleteConfirm]. *)
Definition handleDeleteConfirm_finally (w : World) : World :=
  w |> setIsDeleting false |> setDeleteDialogOpen false |> setPromptToDelete None.

Definition handleDeleteConfirm (w : World) : Step World :=
  match promptToDelete (ui w) with
  | None => Done w
  | Some promptToDelete =>
      Await (setIsDeleting true w) (deletePrompt promptToDelete) (fun settled w =>
        match settled with
        | Fulfilled _ =>
            w |> setPrompts (fun prevPrompts =>
                   filter (fun p => Prompt.id p <> promptToDelete) prevPrompts)
              |> handleDeleteConfirm_finally
        | Rejected _ => handleDeleteConfirm_finally w
        end)
  end.

(** *** Copy to clipboard *)

Definition copied_toast : Toast :=
  {| variant := variant_default; title := "Copié !";
     toast_description := "Le contenu a été copié dans le presse-papiers.";
     duration := Some 2000 |}.

Definition copy_failed_toast : Toast :=
  {| variant := variant_destructive; title := "Erreur";
     toast_description := "Impossible de copier le contenu.";
     duration := None |}.

(** The text holder of the fallback, as it is when it is appended. *)
Definition fallback_textArea (created : Element) (content : string) : Element :=
  {| node := node created; tagName := tagName created; value := content;
     style := [("top", "0"); ("left", "0"); ("position", "fixed"); ("opacity", "0")] |}.

Definition handleCopyClick (content : string) (promptId : Z) (w : World) : Step World :=
  if negb (navigator_clipboard (env w)) then
    let '(created, w) := createElement "textarea" w in
    let textArea := fallback_textArea created content in
    let w := appendChild textArea w in
    let w :=
      match execCommand_copy (env w) with
      | exec_true => w |> setCopiedId (Some promptId) |> toast copied_toast
      | exec_false => toast copy_failed_toast w   (* thrown and caught at once *)
      | exec_throws => toast copy_failed_toast w
      end in
    let w := removeChild textArea w in
    Done (setTimeout COPIED_RESET_DELAY w)
  else
    Await w (clipboard_writeText content) (fun settled w =>
      match settled with
      | Fulfilled _ =>
          w |> setCopiedId (Some promptId) |> toast copied_toast
            |> setTimeout COPIED_RESET_DELAY
      | Rejected _ => toast copy_failed_toast w
      end).

(** *** The rendered controls

    A disabled control fires no handler.  The dialog library dismisses the
    form on an outside interaction by calling [onOpenChange(false)], unless
    [onInteractOutside] prevented the event's default. *)

Definition input_disabled (w : World) : bool := isSubmitting (ui w).
Definition cancel_disabled (w : World) : bool := isSubmitting (ui w).
Definition submit_disabled (w : World) : bool := isSubmitting (ui w).
Definition alertCancel_disabled (w : World) : bool := isDeleting (ui w).
Definition alertAction_disabled (w : World) : bool := isDeleting (ui w).

(** [onOpenChange] of the form dialog. *)
Definition onOpenChange (open : bool) (w : World) : World :=
  if negb open then resetAndCloseForm w else setIsFormOpen open w.

(** [onInteractOutside]: does the handler call [e.preventDefault()]. *)
Definition onInteractOutside_prevents (w : World) : bool := isSubmitting (ui w).

Inductive UserEvent :=
| click_create
| click_edit (prompt : Prompt.t)
| change_input (name : InputName) (value : string)
| submit_form
| click_cancel
| interact_outside
| click_delete (promptId : Z)
| mouse_enter_delete (promptId : Z)
| mouse_leave_delete
| click_alert_cancel
| click_alert_action
| click_copy (prompt : Prompt.t).

Definition dispatch (ev : UserEvent) (w : World) : Step World :=
  match ev with
  | click_create =>
      Done (w |> setEditingId None |> resetAndCloseForm |> setIsFormOpen true)
  | click_edit prompt => Done (handleEditClick prompt w)
  | change_input name value =>
      if input_disabled w then Done w else Done (handleInputChange name value w)
  | submit_form =>
      if submit_disabled w then Done w else handleSubmit w
  | click_cancel =>
      if cancel_disabled w then Done w else Done (resetAndCloseForm w)
  | interact_outside =>
      if onInteractOutside_prevents w then Done w else Done (onOpenChange false w)
  | click_delete promptId => Done (handleDeleteClick promptId w)
  | mouse_enter_delete promptId => Done (setHoveredDeleteId (Some promptId) w)
  | mouse_leave_delete => Done (setHoveredDeleteId None w)
  | click_alert_cancel =>
      if alertCancel_disabled w then Done w else Done (setDeleteDialogOpen false w)
  | click_alert_action =>
      if alertAction_disabled w then Done w else handleDeleteConfirm w
  | click_copy prompt => handleCopyClick (Prompt.content prompt) (Prompt.id prompt) w
  end.

(** *** Rendered texts

    JSX conditions use JavaScript truthiness: a number is truthy unless it is
    0, a string unless it is empty, and [null] never is. *)

Definition truthy_number (n : option Z) : bool :=
  match n with
  | Some v => negb (v =? 0)%Z
  | None => false
  end.

Definition truthy_string (s : option string) : bool :=
  match s with
  | Some EmptyString => false
  | Some (String _ _) => true
  | None => false
  end.

(** [{editingId ? 'Edit Prompt' : 'Create New Prompt'}] *)
Definition dialogTitle (w : World) : string :=
  if truthy_number (editingId (ui w)) then "Edit Prompt" else "Create New Prompt".

(** The text of the submit button. *)
Definition submit_label (w : World) : string :=
  if isSubmitting (ui w)
  then (if truthy_number (editingId (ui w)) then "Saving..." else "Creating...")
  else (if truthy_number (editingId (ui w)) then "Save Changes" else "Create Prompt").

(** [{error && <p ...>{error}</p>}]: the text of the error paragraph, when
    one is rendered. *)
Definition error_paragraph (w : World) : option string :=
  if truthy_string (error (ui w)) then error (ui w) else None.

End Wired.

(** ** The version whose delete button is a placeholder
    ([src/app/prompts/_components/prompts-grid.tsx]) *)

Module Placeholder.

Record State := {
  prompts : list Prompt.t;
  copiedId : option Z;
  isFormOpen : bool;
  formData : FormData.t;
  isSubmitting : bool;
  error : option string;
  editingId : option Z
}.

Record World := { ui : State; env : Browser }.

Definition on_ui (f : State -> State) (w : World) : World :=
  {| ui := f (ui w); env := env w |}.
Definition on_env (f : Browser -> Browser) (w : World) : World :=
  {| ui := ui w; env := f (env w) |}.

Definition initialState (initialPrompts : list Prompt.t) : State :=
  {| prompts := initialPrompts; copiedId := None; isFormOpen := false;
     formData := FormData.mk "" "" ""; isSubmitting := false; error := None;
     editingId := None |}.

Definition setPrompts (f : list Prompt.t -> list Prompt.t) : World -> World :=
  on_ui (fun s =>
    {| prompts := f (prompts s); copiedId := copiedId s; isFormOpen := isFormOpen s;
       formData := formData s; isSubmitting := isSubmitting s; error := error s;
       editingId := editingId s |}).

Definition setCopiedId (v : option Z) : World -> World :=
  on_ui (fun s =>
    {| prompts := prompts s; copiedId := v; isFormOpen := isFormOpen s;
       formData := formData s; isSubmitting := isSubmitting s; error := error s;
       editingId := editingId s |}).

Definition setIsFormOpen (v : bool) : World -> World :=
  on_ui (fun s =>
    {| prompts := prompts s; copiedId := copiedId s; isFormOpen := v;
       formData := formData s; isSubmitting := isSubmitting s; error := error s;
       editingId := editingId s |}).

Definition setFormData (f : FormData.t -> FormData.t) : World -> World :=
  on_ui (fun s =>
    {| prompts := prompts s; copiedId := copiedId s; isFormOpen := isFormOpen s;
       formData := f (formData s); isSubmitting := isSubmitting s; error := error s;
       editingId := editingId s |}).

Definition setIsSubmitting (v : bool) : World -> World :=
  on_ui (fun s =>
    {| prompts := prompts s; copiedId := copiedId s; isFormOpen := isFormOpen s;
       formData := formData s; isSubmitting := v; error := error s;
       editingId := editingId s |}).

Definition setError (v : option string) : World -> World :=
  on_ui (fun s =>
    {| prompts := prompts s; copiedId := copiedId s; isFormOpen := isFormOpen s;
       formData := formData s; isSubmitting := isSubmitting s; error := v;
       editingId := editingId s |}).

Definition setEditingId (v : option Z) : World -> World :=
  on_ui (fun s =>
    {| prompts := prompts s; copiedId := copiedId s; isFormOpen := isFormOpen s;
       formData := formData s; isSubmitting := isSubmitting s; error := error s;
       editingId := v |}).

Definition setTimeout (delay : Z) : World -> World := on_env (browser_setTimeout delay).

Definition run_timers_until (t : Z) (w : World) : World :=
  fold_left (fun w' _ => setCopiedId None w') (due_by t (timers (env w))) w
    |> on_env (set_timers (pending_after t (timers (env w))))
    |> on_env (set_now t).

Definition elapse (dt : Z) (w : World) : World :=
  run_timers_until (now (env w) + dt) w.

Definition handleInputChange (name : InputName) (value : string) : World -> World :=
  setFormData (fun prevData =>
    match name with
    | input_name =>
        FormData.mk value (FormData.description prevData) (FormData.content prevData)
    | input_description =>
        FormData.mk (FormData.name prevData) value (FormData.content prevData)
    | input_content =>
        FormData.mk (FormData.name prevData) (FormData.description prevData) value
    end).

Definition handleEditClick (promptToEdit : Prompt.t) (w : World) : World :=
  w |> setEditingId (Some (Prompt.id promptToEdit))
    |> setFormData (fun _ =>
         FormData.mk (Prompt.name promptToEdit) (Prompt.description promptToEdit)
                     (Prompt.content promptToEdit))
    |> setError None
    |> setIsFormOpen true.

Definition resetAndCloseForm (w : World) : World :=
  w |> setIsFormOpen false
    |> setFormData (fun _ => FormData.mk "" "" "")
    |> setError None
    |> setIsSubmitting false
    |> setEditingId None.

Definition handleSubmit_catch (err : Thrown) (w : World) : World :=
  w |> setError (Some match err with
                      | ErrorInstance message => message
                      | NotAnError => "Failed to save prompt."
                      end)
    |> setIsSubmitting false.

Definition handleSubmit (w : World) : Step World :=
  let editingId := editingId (ui w) in
  let formData := formData (ui w) in
  let w := w |> setIsSubmitting true |> setError None in
  match editingId with
  | Some editingId =>
      Await w (updatePrompt editingId formData) (fun settled w =>
        match settled with
        | Fulfilled updatedPrompt =>
            w |> setPrompts (fun prevPrompts =>
                   (fun p => if decide (Prompt.id p = editingId)
                             then updatedPrompt else p) <$> prevPrompts)
              |> resetAndCloseForm
        | Rejected err => handleSubmit_catch err w
        end)
  | None =>
      Await w (createPrompt formData) (fun settled w =>
        match settled with
        | Fulfilled newPrompt =>
            w |> setPrompts (fun prevPrompts => newPrompt :: prevPrompts)
              |> resetAndCloseForm
        | Rejected err => handleSubmit_catch err w
        end)
  end.

(** The copy button's inline [onClick].  The promise of [writeText] is not
    awaited: the marker is set and the reset scheduled whatever becomes of
    it.  Without [navigator.clipboard] the property access throws and the
    rest of the handler does not run. *)
Definition copy_onClick (prompt : Prompt.t) (w : World) : Step World :=
  if navigator_clipboard (env w) then
    Await (w |> setCopiedId (Some (Prompt.id prompt)) |> setTimeout COPIED_RESET_DELAY)
          (clipboard_writeText (Prompt.content prompt))
          (fun _ w => w)
  else Done w.

(** The delete button's [onClick] only writes to the console. *)
Definition delete_onClick (promptId : Z) (w : World) : World := w.

Definition input_disabled (w : World) : bool := isSubmitting (ui w).
Definition cancel_disabled (w : World) : bool := isSubmitting (ui w).
Definition submit_disabled (w : World) : bool := isSubmitting (ui w).

Definition onOpenChange (open : bool) (w : World) : World :=
  if negb open then resetAndCloseForm w else setIsFormOpen open w.

Definition onInteractOutside_prevents (w : World) : bool := isSubmitting (ui w).

Inductive UserEvent :=
| click_create
| click_edit (prompt : Prompt.t)
| change_input (name : InputName) (value : string)
| submit_form
| click_cancel
| interact_outside
| click_delete (promptId : Z)
| click_copy (prompt : Prompt.t).

Definition dispatch (ev : UserEvent) (w : World) : Step World :=
  match ev with
  | click_create =>
      Done (w |> setEditingId None |> resetAndCloseForm |> setIsFormOpen true)
  | click_edit prompt => Done (handleEditClick prompt w)
  | change_input name value =>
      if input_disabled w then Done w else Done (handleInputChange name value w)
  | submit_form =>
      if submit_disabled w then Done w else handleSubmit w
  | click_cancel =>
      if cancel_disabled w then Done w else Done (resetAndCloseForm w)
  | interact_outside =>
      if onInteractOutside_prevents w then Done w else Done (onOpenChange false w)
  | click_delete promptId => Done (delete_onClick promptId w)
  | click_copy prompt => copy_onClick prompt w
  end.

End Placeholder.

(** ** Relating the two versions *)

(** The later version's state seen through the fields the earlier one has. *)
Definition forget_state (s : Wired.State) : Placeholder.State :=
  {| Placeholder.prompts := Wired.prompts s;
     Placeholder.copiedId := Wired.copiedId s;
     Placeholder.isFormOpen := Wired.isFormOpen s;
     Placeholder.formData := Wired.formData s;
     Placeholder.isSubmitting := Wired.isSubmitting s;
     Placeholder.error := Wired.error s;
     Placeholder.editingId := Wired.editingId s |}.

Definition forget (w : Wired.World) : Placeholder.World :=
  {| Placeholder.ui := forget_state (Wired.ui w); Placeholder.env := Wired.env w |}.

(** Two runs that agree: they finish in matching worlds, or wait for the same
    call in matching worlds with continuations that keep worlds matching. *)
Inductive same_step : Step Wired.World -> Step Placeholder.World -> Prop :=
| same_done w :
    same_step (Done w) (Done (forget w))
| same_await {A} w (call : Collaborator A) k k' :
    (forall settled w', forget (k settled w') = k' settled (forget w')) ->
    same_step (Await w call k) (Await (forget w) call k').

(** The form events the two versions share, as events of each. *)
Inductive FormEvent :=
| form_click_create
| form_click_edit (prompt : Prompt.t)
| form_change_input (name : InputName) (value : string)
| form_submit
| form_click_cancel
| form_interact_outside.

Definition wired_event (ev : FormEvent) : Wired.UserEvent :=
  match ev with
  | form_click_create => Wired.click_create
  | form_click_edit p => Wired.click_edit p
  | form_change_input n v => Wired.change_input n v
  | form_submit => Wired.submit_form
  | form_click_cancel => Wired.click_cancel
  | form_interact_outside => Wired.interact_outside
  end.

Definition placeholder_event (ev : FormEvent) : Placeholder.UserEvent :=
  match ev with
  | form_click_create => Placeholder.click_create
  | form_click_edit p => Placeholder.click_edit p
  | form_change_input n v => Placeholder.change_input n v
  | form_submit => Placeholder.submit_form
  | form_click_cancel => Placeholder.click_cancel
  | form_interact_outside => Placeholder.interact_outside
  end.

(** ** Sample data *)

Definition prompt_1 : Prompt.t := Prompt.mk 1 "Greeting" "Say hello" "hello".
Definition prompt_3 : Prompt.t := Prompt.mk 3 "A" "d" "c".
Definition prompt_5 : Prompt.t := Prompt.mk 5 "Summary" "Summarise a text" "Summarise:".
Definition prompt_3_renamed : Prompt.t := Prompt.mk 3 "B" "d" "c".
Definition prompt_7 : Prompt.t := Prompt.mk 7 "A" "d" "c".

(** A browser with the clipboard API, at time 0, with an empty page body. *)
Definition modern_browser : Browser :=
  {| now := 0; timers := []; navigator_clipboard := true;
     execCommand_copy := exec_true; toasts := []; body := []; next_node := 0 |}.

(** A browser without [navigator.clipboard] whose legacy copy command
    answers [outcome]; the page body already holds one element. *)
Definition legacy_browser (outcome : ExecOutcome) : Browser :=
  {| now := 0; timers := []; navigator_clipboard := false;
     execCommand_copy := outcome; toasts := [];
     body := [ {| node := 0; tagName := "div"; value := ""; style := [] |} ];
     next_node := 1 |}.

(** The freshly mounted grid showing three prompts. *)
Definition mounted : Wired.World :=
  {| Wired.ui := Wired.initialState [prompt_1; prompt_3; prompt_5];
     Wired.env := modern_browser |}.

Definition mounted_legacy (outcome : ExecOutcome) : Wired.World :=
  {| Wired.ui := Wired.initialState [prompt_1; prompt_3; prompt_5];
     Wired.env := legacy_browser outcome |}.

(** The edit form open on prompt 3, with the name changed to "B". *)
Definition editing_3 : Wired.World :=
  mounted |> Wired.handleEditClick prompt_3
          |> Wired.handleInputChange input_name "B".

(** The create form open and filled in. *)
Definition creating : Wired.World :=
  mounted |> Wired.setEditingId None |> Wired.resetAndCloseForm
          |> Wired.setIsFormOpen true
          |> Wired.handleInputChange input_name "A"
          |> Wired.handleInputChange input_description "d"
          |> Wired.handleInputChange input_content "c".

(** The world of a step, whether it finished or is waiting. *)
Definition step_world {W} (s : Step W) : W :=
  match s with
  | Done w => w
  | Await w _ _ => w
  end.

(** The create form just submitted: the call is in flight. *)
Definition create_in_flight : Wired.World := step_world (Wired.handleSubmit creating).

(** Delete was requested on prompt 5 and the confirmation is showing. *)
Definition confirming_5 : Wired.World := Wired.handleDeleteClick 5 mounted.

(** Answers of the environment used in the scenarios below. *)
Definition clipboard_fulfils : forall A, Collaborator A -> Settled A :=
  fun A call =>
    match call in Collaborator T return Settled T with
    | clipboard_writeText _ => Fulfilled tt
    | _ => Rejected NotAnError
    end.

Definition quota_exceeded : Thrown := ErrorInstance "quota exceeded".

(** The edit form just submitted: the update call is in flight. *)
Definition edit_in_flight : Wired.World := step_world (Wired.handleSubmit editing_3).

(** A click on a record's copy button whose clipboard write is fulfilled at
    once. *)
Definition copy_fulfilled (p : Prompt.t) (w : Wired.World) : Wired.World :=
  settle_now clipboard_fulfils (Wired.dispatch (Wired.click_copy p) w).

Definition placeholder_copy_fulfilled (p : Prompt.t) (v : Placeholder.World)
    : Placeholder.World :=
  settle_now clipboard_fulfils (Placeholder.dispatch (Placeholder.click_copy p) v).

(** Prompt 1 is copied, and 1.5 seconds later prompt 3. *)
Definition two_copies : Wired.World :=
  mounted |> copy_fulfilled prompt_1 |> Wired.elapse 1500 |> copy_fulfilled prompt_3.

(** ** The component over time *)

(** The value of one input of the draft. *)
Definition field (name : InputName) (d : FormData.t) : string :=
  match name with
  | input_name => FormData.name d
  | input_description => FormData.description d
  | input_content => FormData.content d
  end.

(** The call of a suspended handler settles in world [w']; a handler that
    had finished leaves [w'] alone. *)
Definition resume {W} (s : Step W) (answer : forall A, Collaborator A -> Settled A)
    (w' : W) : W :=
  match s with
  | Done _ => w'
  | Await _ call k => k (answer _ call) w'
  end.

(** The browser gains or loses the clipboard API, or its legacy copy command
    starts answering differently. *)
Definition set_copy_support (clipboard : bool) (outcome : ExecOutcome) (b : Browser)
    : Browser :=
  {| now := now b; timers := timers b; navigator_clipboard := clipboard;
     execCommand_copy := outcome; toasts := toasts b; body := body b;
     next_node := next_node b |}.

(** The worlds the component can be in after it was mounted on
    [initialPrompts] in the browser [b0] with none of its timeouts pending:
    user events are dispatched, time passes, the browser's copy support
    changes, and the call of any handler started earlier settles, in any
    order and with any outcome. *)
Inductive reachable (initialPrompts : list Prompt.t) (b0 : Browser)
    : Wired.World -> Prop :=
| reach_mount :
    timers b0 = [] ->
    reachable initialPrompts b0
      {| Wired.ui := Wired.initialState initialPrompts; Wired.env := b0 |}
| reach_event ev w :
    reachable initialPrompts b0 w ->
    reachable initialPrompts b0 (step_world (Wired.dispatch ev w))
| reach_settle ev w0 answer w :
    reachable initialPrompts b0 w0 ->
    reachable initialPrompts b0 w ->
    reachable initialPrompts b0 (resume (Wired.dispatch ev w0) answer w)
| reach_elapse dt w :
    0 <= dt ->
    reachable initialPrompts b0 w ->
    reachable initialPrompts b0 (Wired.elapse dt w)
| reach_copy_support clipboard outcome w :
    reachable initialPrompts b0 w ->
    reachable initialPrompts b0 (Wired.on_env (set_copy_support clipboard outcome) w).

(** Every pending reset of the marker is due after now and at most
    [COPIED_RESET_DELAY] from now, and a set marker has a reset pending. *)
Definition resets_pending (w : Wired.World) : Prop :=
  Forall (fun d => now (Wired.env w) < d <= now (Wired.env w) + COPIED_RESET_DELAY)
         (timers (Wired.env w)) /\
  (Wired.copiedId (Wired.ui w) <> None -> timers (Wired.env w) <> []).

(** The form cells hold their initial values. *)
Definition form_at_rest (w : Wired.World) : Prop :=
  Wired.isFormOpen (Wired.ui w) = false /\
  Wired.formData (Wired.ui w) = FormData.mk "" "" "" /\
  Wired.error (Wired.ui w) = None /\
  Wired.isSubmitting (Wired.ui w) = false /\
  Wired.editingId (Wired.ui w) = None.


(** The ids shown, in order. *)
Definition ids (l : list Prompt.t) : list Z := Prompt.id <$> l.

(** A run of user events, each taken up to where its handler finishes or
    suspends. *)
Definition after_events (evs : list Wired.UserEvent) (w : Wired.World) : Wired.World :=
  fold_left (fun w' ev => step_world (Wired.dispatch ev w')) evs w.

(** * Properties *)

(** ** Basic facts about the handlers' building blocks *)

Section WiredFacts.
Import Wired.

(** [resetAndCloseForm] puts every form cell back to its initial value and
    touches nothing else. *)
Lemma resetAndCloseForm_spec (w : World) :
  let w' := resetAndCloseForm w in
  isFormOpen (ui w') = false /\
  formData (ui w') = FormData.mk "" "" "" /\
  error (ui w') = None /\
  isSubmitting (ui w') = false /\
  editingId (ui w') = None /\
  prompts (ui w') = prompts (ui w) /\
  env w' = env w.
Proof. repeat split. Qed.

(** The updater of the update path, position by position. *)
Lemma replace_by_id_lookup (target : Z) (updated : Prompt.t)
    (l : list Prompt.t) (i : nat) :
  ((fun p => if decide (Prompt.id p = target) then updated else p) <$> l) !! i
  = (fun p => if decide (Prompt.id p = target) then updated else p) <$> (l !! i).
Proof. apply list_lookup_fmap. Qed.

(** [handleSubmit] has no check of its own on [isSubmitting]: whenever it
    runs it starts a call, and leaves the guard set while waiting. *)
Lemma handleSubmit_always_awaits (w : World) :
  exists (call : Collaborator Prompt.t) k,
    handleSubmit w = Await (w |> setIsSubmitting true |> setError None) call k /\
    isSubmitting (ui (w |> setIsSubmitting true |> setError None)) = true.
Proof.
  unfold handleSubmit. destruct (editingId (ui w)); eauto.
Qed.

End WiredFacts.

(** ** Submit in edit mode *)

Section Submit.
Import Wired.

(** C1. In edit mode [handleSubmit] awaits [updatePrompt] for the
    editing target with the draft; when that call is fulfilled with a
    record, every position of the collection holding a record whose id is
    the target now holds the returned record, every other position holds
    what it held, the length is the same, and the form is closed with the
    draft, the error, the in-flight guard and the editing target reset. *)
Theorem C1_update_replaces_in_place (w : World) (target : Z)
    (Hedit : editingId (ui w) = Some target) :
  exists k,
    handleSubmit w
      = Await (w |> setIsSubmitting true |> setError None)
              (updatePrompt target (formData (ui w))) k /\
    forall (updatedPrompt : Prompt.t) (w' : World),
      let after := k (Fulfilled updatedPrompt) w' in
      length (prompts (ui after)) = length (prompts (ui w')) /\
      (forall i p, prompts (ui w') !! i = Some p ->
         prompts (ui after) !! i
         = Some (if decide (Prompt.id p = target) then updatedPrompt else p)) /\
      (forall i p, prompts (ui w') !! i = Some p -> Prompt.id p <> target ->
         prompts (ui after) !! i = Some p) /\
      isFormOpen (ui after) = false /\
      formData (ui after) = FormData.mk "" "" "" /\
      error (ui after) = None /\
      isSubmitting (ui after) = false /\
      editingId (ui after) = None.
Proof.
  unfold handleSubmit. rewrite Hedit. eexists. split; [reflexivity|].
  intros updatedPrompt w'. cbn zeta.
  repeat split.
  - cbn. apply length_fmap.
  - intros i p Hi. cbn. rewrite replace_by_id_lookup, Hi. reflexivity.
  - intros i p Hi Hne. cbn. rewrite replace_by_id_lookup, Hi. cbn.
    destruct (decide (Prompt.id p = target)); [contradiction | reflexivity].
Qed.

(** The scenario of the specification: record 3 is opened for edit, its
    name changed to "B", and the collaborator echoes the record back. *)
Lemma C1_witness :
  editingId (ui editing_3) = Some 3 /\
  exists k,
    handleSubmit editing_3
      = Await edit_in_flight (updatePrompt 3 (FormData.mk "B" "d" "c")) k /\
    prompts (ui (k (Fulfilled prompt_3_renamed) edit_in_flight)) !! 0%nat
      = Some prompt_1 /\
    prompts (ui (k (Fulfilled prompt_3_renamed) edit_in_flight)) !! 1%nat
      = Some prompt_3_renamed /\
    prompts (ui (k (Fulfilled prompt_3_renamed) edit_in_flight)) !! 2%nat
      = Some prompt_5 /\
    isFormOpen (ui (k (Fulfilled prompt_3_renamed) edit_in_flight)) = false.
Proof.
  split; [reflexivity|].
  destruct (C1_update_replaces_in_place editing_3 3 eq_refl) as (k & Hk & Hafter).
  exists k. split; [exact Hk|].
  destruct (Hafter prompt_3_renamed edit_in_flight)
    as (_ & Hpos & _ & Hclosed & _).
  repeat split.
  - exact (Hpos 0%nat prompt_1 eq_refl).
  - exact (Hpos 1%nat prompt_3 eq_refl).
  - exact (Hpos 2%nat prompt_5 eq_refl).
  - exact Hclosed.
Defined.

(** ** Submit in create mode *)

(** C2. In create mode [handleSubmit] awaits [createPrompt] with the
    draft, in both versions of the component; when that call is fulfilled
    with a new record, the record becomes the first element of the
    collection, followed by the former elements in their order, and the
    form is closed with its transient state reset. *)
Theorem C2_create_prepends (w : World) (v : Placeholder.World)
    (Hw : editingId (ui w) = None)
    (Hv : Placeholder.editingId (Placeholder.ui v) = None) :
  (exists k,
     handleSubmit w
       = Await (w |> setIsSubmitting true |> setError None)
               (createPrompt (formData (ui w))) k /\
     forall (newPrompt : Prompt.t) (w' : World),
       let after := k (Fulfilled newPrompt) w' in
       prompts (ui after) = newPrompt :: prompts (ui w') /\
       head (prompts (ui after)) = Some newPrompt /\
       isFormOpen (ui after) = false /\
       formData (ui after) = FormData.mk "" "" "" /\
       error (ui after) = None /\
       isSubmitting (ui after) = false /\
       editingId (ui after) = None) /\
  (exists k,
     Placeholder.handleSubmit v
       = Await (v |> Placeholder.setIsSubmitting true |> Placeholder.setError None)
               (createPrompt (Placeholder.formData (Placeholder.ui v))) k /\
     forall (newPrompt : Prompt.t) (v' : Placeholder.World),
       let after := k (Fulfilled newPrompt) v' in
       Placeholder.prompts (Placeholder.ui after)
         = newPrompt :: Placeholder.prompts (Placeholder.ui v') /\
       head (Placeholder.prompts (Placeholder.ui after)) = Some newPrompt /\
       Placeholder.isFormOpen (Placeholder.ui after) = false /\
       Placeholder.formData (Placeholder.ui after) = FormData.mk "" "" "" /\
       Placeholder.error (Placeholder.ui after) = None /\
       Placeholder.isSubmitting (Placeholder.ui after) = false /\
       Placeholder.editingId (Placeholder.ui after) = None).
Proof.
  split.
  - unfold handleSubmit. rewrite Hw. eexists. split; [reflexivity|].
    intros newPrompt w'. cbn. repeat split.
  - unfold Placeholder.handleSubmit. rewrite Hv. eexists. split; [reflexivity|].
    intros newPrompt v'. cbn. repeat split.
Qed.

(** The scenario of the specification: the draft [{name:"A",
    description:"d", content:"c"}] is submitted and the collaborator
    returns the record with id 7. *)
Lemma C2_witness :
  editingId (ui creating) = None /\
  Placeholder.editingId (Placeholder.ui (forget creating)) = None /\
  (exists k,
     handleSubmit creating
       = Await create_in_flight (createPrompt (FormData.mk "A" "d" "c")) k /\
     prompts (ui (k (Fulfilled prompt_7) create_in_flight))
       = [prompt_7; prompt_1; prompt_3; prompt_5] /\
     isFormOpen (ui (k (Fulfilled prompt_7) create_in_flight)) = false) /\
  (exists k,
     Placeholder.handleSubmit (forget creating)
       = Await (forget create_in_flight) (createPrompt (FormData.mk "A" "d" "c")) k /\
     Placeholder.prompts (Placeholder.ui (k (Fulfilled prompt_7) (forget create_in_flight)))
       = [prompt_7; prompt_1; prompt_3; prompt_5]).
Proof.
  split; [reflexivity|]. split; [reflexivity|].
  destruct (C2_create_prepends creating (forget creating) eq_refl eq_refl)
    as [(k & Hk & Hafter) (k' & Hk' & Hafter')].
  split.
  - exists k. split; [exact Hk|].
    destruct (Hafter prompt_7 create_in_flight) as (Hcons & _ & Hclosed & _).
    split; [exact Hcons | exact Hclosed].
  - exists k'. split; [exact Hk'|].
    destruct (Hafter' prompt_7 (forget create_in_flight)) as (Hcons & _).
    exact Hcons.
Defined.

(** ** A failed save *)

(** C3. Whatever the mode, [handleSubmit] awaits one call (update in edit
    mode, create otherwise) and its synchronous part leaves the form's
    open flag as it was.  When the call is rejected, the open flag is
    left as it is (the form stays open), the error cell holds the
    message of the failure when the failure is an [Error], and the text
    "Failed to save prompt." otherwise, the in-flight guard is released,
    and the collection is unchanged. *)
Theorem C3_failed_save_keeps_form (w : World) :
  exists (call : Collaborator Prompt.t) k,
    handleSubmit w = Await (w |> setIsSubmitting true |> setError None) call k /\
    call = match editingId (ui w) with
           | Some target => updatePrompt target (formData (ui w))
           | None => createPrompt (formData (ui w))
           end /\
    isFormOpen (ui (w |> setIsSubmitting true |> setError None)) = isFormOpen (ui w) /\
    forall (w' : World),
      (forall err,
         isFormOpen (ui (k (Rejected err) w')) = isFormOpen (ui w') /\
         isSubmitting (ui (k (Rejected err) w')) = false /\
         prompts (ui (k (Rejected err) w')) = prompts (ui w') /\
         editingId (ui (k (Rejected err) w')) = editingId (ui w') /\
         formData (ui (k (Rejected err) w')) = formData (ui w')) /\
      (forall message,
         error (ui (k (Rejected (ErrorInstance message)) w')) = Some message) /\
      error (ui (k (Rejected NotAnError) w')) = Some "Failed to save prompt.".
Proof.
  unfold handleSubmit.
  destruct (editingId (ui w)) as [target|];
    do 2 eexists; (split; [reflexivity|]); repeat split.
Qed.

(** The scenario of the specification: the create collaborator rejects
    with the message "quota exceeded". *)
Lemma C3_witness :
  exists k,
    handleSubmit creating
      = Await create_in_flight (createPrompt (FormData.mk "A" "d" "c")) k /\
    isFormOpen (ui (k (Rejected quota_exceeded) create_in_flight)) = true /\
    error (ui (k (Rejected quota_exceeded) create_in_flight)) = Some "quota exceeded" /\
    isSubmitting (ui (k (Rejected quota_exceeded) create_in_flight)) = false /\
    prompts (ui (k (Rejected quota_exceeded) create_in_flight))
      = [prompt_1; prompt_3; prompt_5].
Proof.
  destruct (C3_failed_save_keeps_form creating) as (call & k & Hk & Hcall & _ & Hafter).
  cbn in Hcall. subst call.
  exists k. split; [exact Hk|].
  destruct (Hafter create_in_flight) as (Hframe & Hmsg & _).
  destruct (Hframe quota_exceeded) as (Hopen & Hguard & Hprompts & _).
  repeat split.
  - rewrite Hopen. reflexivity.
  - exact (Hmsg "quota exceeded").
  - exact Hguard.
  - rewrite Hprompts. reflexivity.
Defined.

End Submit.

(** ** The delete confirmation *)

Section Delete.
Import Wired.

(** C4. With a pending target, [handleDeleteConfirm] sets the in-flight
    guard and awaits [deletePrompt] for the target.  When the call is
    fulfilled, the collection keeps, in their order, exactly the records
    whose id differs from the target; when it is rejected, the collection
    is unchanged.  Either way the guard is cleared, the confirmation is
    closed and the pending target is reset. *)
Theorem C4_confirm_delete (w : World) (target : Z)
    (Hpending : promptToDelete (ui w) = Some target) :
  exists k,
    handleDeleteConfirm w = Await (setIsDeleting true w) (deletePrompt target) k /\
    forall (w' : World),
      (* success *)
      prompts (ui (k (Fulfilled tt) w'))
        = filter (fun p => Prompt.id p <> target) (prompts (ui w')) /\
      (forall p, p ∈ prompts (ui (k (Fulfilled tt) w')) <->
                 p ∈ prompts (ui w') /\ Prompt.id p <> target) /\
      prompts (ui (k (Fulfilled tt) w')) `sublist_of` prompts (ui w') /\
      (* failure *)
      (forall err, prompts (ui (k (Rejected err) w')) = prompts (ui w')) /\
      (* all outcomes *)
      (forall settled,
         isDeleting (ui (k settled w')) = false /\
         deleteDialogOpen (ui (k settled w')) = false /\
         promptToDelete (ui (k settled w')) = None).
Proof.
  unfold handleDeleteConfirm. rewrite Hpending. eexists. split; [reflexivity|].
  intros w'. repeat split.
  - cbn in H. apply list_elem_of_filter in H. tauto.
  - cbn in H. apply list_elem_of_filter in H. tauto.
  - intros [Hin Hne]. cbn. apply list_elem_of_filter. tauto.
  - cbn. apply sublist_filter.
  - destruct settled as [[]|err]; reflexivity.
  - destruct settled as [[]|err]; reflexivity.
  - destruct settled as [[]|err]; reflexivity.
Qed.

(** The scenario of the specification: delete is requested on id 5 and
    confirmed; the collaborator resolves, or rejects. *)
Lemma C4_witness :
  promptToDelete (ui confirming_5) = Some 5 /\
  exists k,
    handleDeleteConfirm confirming_5
      = Await (setIsDeleting true confirming_5) (deletePrompt 5) k /\
    prompts (ui (k (Fulfilled tt) (setIsDeleting true confirming_5)))
      = [prompt_1; prompt_3] /\
    prompts (ui (k (Rejected NotAnError) (setIsDeleting true confirming_5)))
      = [prompt_1; prompt_3; prompt_5] /\
    deleteDialogOpen (ui (k (Fulfilled tt) (setIsDeleting true confirming_5))) = false /\
    promptToDelete (ui (k (Fulfilled tt) (setIsDeleting true confirming_5))) = None.
Proof.
  split; [reflexivity|].
  destruct (C4_confirm_delete confirming_5 5 eq_refl) as (k & Hk & Hafter).
  exists k. split; [exact Hk|].
  destruct (Hafter (setIsDeleting true confirming_5))
    as (Hok & _ & _ & Hfail & Hall).
  destruct (Hall (Fulfilled tt)) as (_ & Hclosed & Hcleared).
  repeat split.
  - rewrite Hok. reflexivity.
  - rewrite Hfail. reflexivity.
  - exact Hclosed.
  - exact Hcleared.
Defined.

(** C10. Without a pending target [handleDeleteConfirm] returns at once:
    no call is awaited and the world, hence the collection, the dialog
    flag and the in-flight guard, is the one it was given. *)
Theorem C10_confirm_without_target (w : World)
    (Hnone : promptToDelete (ui w) = None) :
  handleDeleteConfirm w = Done w /\
  prompts (ui (step_world (handleDeleteConfirm w))) = prompts (ui w) /\
  deleteDialogOpen (ui (step_world (handleDeleteConfirm w))) = deleteDialogOpen (ui w) /\
  isDeleting (ui (step_world (handleDeleteConfirm w))) = isDeleting (ui w).
Proof.
  unfold handleDeleteConfirm. rewrite Hnone. repeat split.
Qed.

Lemma C10_witness :
  promptToDelete (ui mounted) = None /\
  handleDeleteConfirm mounted = Done mounted.
Proof.
  split; [reflexivity|].
  exact (proj1 (C10_confirm_without_target mounted eq_refl)).
Defined.

End Delete.

(** ** The in-flight guard of the form *)

Section Guard.
Import Wired.

(** C5. While a submission is in flight the submit control is disabled,
    so submitting the form again runs no handler: no create or update
    call is started and the world is unchanged.  (The guard is the
    disabled control; [handleSubmit] has no check of its own, see
    [handleSubmit_always_awaits].) *)
Theorem C5_no_second_submit (w : World)
    (Hflight : isSubmitting (ui w) = true) :
  submit_disabled w = true /\
  dispatch submit_form w = Done w.
Proof.
  unfold dispatch, submit_disabled. rewrite Hflight. split; reflexivity.
Qed.

(** A first submit of the create form puts the world in flight, and a
    second submit there does nothing. *)
Lemma C5_witness :
  isSubmitting (ui create_in_flight) = true /\
  step_world (dispatch submit_form creating) = create_in_flight /\
  dispatch submit_form create_in_flight = Done create_in_flight.
Proof.
  split; [reflexivity|]. split; [reflexivity|].
  exact (proj2 (C5_no_second_submit create_in_flight eq_refl)).
Defined.

(** C6 as stated fails: with a submission in flight the Cancel button is
    disabled, not usable. *)
Lemma C6_cancel_not_usable_in_flight :
  isSubmitting (ui create_in_flight) = true /\
  ~ (dispatch interact_outside create_in_flight = Done create_in_flight /\
     cancel_disabled create_in_flight = false /\
     dispatch click_cancel create_in_flight = Done create_in_flight).
Proof.
  split; [reflexivity|].
  intros (_ & Husable & _). discriminate Husable.
Qed.

(** C6, amended. While a submission is in flight, [onInteractOutside]
    prevents the dismissal, so an outside click leaves the world as it is;
    the Cancel button is disabled too, and a click on it has no effect. *)
Theorem C6_in_flight_form_is_locked (w : World)
    (Hflight : isSubmitting (ui w) = true) :
  onInteractOutside_prevents w = true /\
  dispatch interact_outside w = Done w /\
  cancel_disabled w = true /\
  dispatch click_cancel w = Done w.
Proof.
  unfold dispatch, onInteractOutside_prevents, cancel_disabled.
  rewrite Hflight. repeat split.
Qed.

Lemma C6_witness :
  isSubmitting (ui create_in_flight) = true /\
  dispatch interact_outside create_in_flight = Done create_in_flight /\
  cancel_disabled create_in_flight = true /\
  dispatch click_cancel create_in_flight = Done create_in_flight.
Proof.
  split; [reflexivity|].
  destruct (C6_in_flight_form_is_locked create_in_flight eq_refl)
    as (_ & Houtside & Hdisabled & Hcancel).
  repeat split; assumption.
Defined.

(** When idle, Cancel resets the form. *)
Lemma cancel_when_idle (w : World) :
  isSubmitting (ui w) = false ->
  dispatch click_cancel w = Done (resetAndCloseForm w).
Proof.
  intros Hidle. unfold dispatch, cancel_disabled. rewrite Hidle. reflexivity.
Qed.

End Guard.

(** ** Time and the "copied" marker *)

Lemma due_by_cons t d ts :
  due_by t (d :: ts) = if decide (d <= t) then d :: due_by t ts else due_by t ts.
Proof. reflexivity. Qed.

Lemma pending_after_cons t d ts :
  pending_after t (d :: ts)
  = if decide (t < d) then d :: pending_after t ts else pending_after t ts.
Proof. reflexivity. Qed.

Section WiredClock.
Import Wired.

Lemma clear_all_copiedId (l : list Z) (w : World) :
  copiedId (ui (fold_left (fun w' _ => setCopiedId None w') l w))
  = match l with [] => copiedId (ui w) | _ :: _ => None end.
Proof.
  destruct l as [|d l]; [reflexivity|]. cbn.
  generalize (setCopiedId None w) (eq_refl : copiedId (ui (setCopiedId None w)) = None).
  induction l as [|d' l IH]; intros w0 Hw0; [exact Hw0|].
  cbn. apply IH. reflexivity.
Qed.

Lemma clear_all_env (l : list Z) (w : World) :
  env (fold_left (fun w' _ => setCopiedId None w') l w) = env w.
Proof.
  revert w. induction l as [|d l IH]; intros w; [reflexivity|].
  cbn. rewrite IH. reflexivity.
Qed.

Lemma elapse_copiedId (e : Z) (w : World) :
  copiedId (ui (elapse e w))
  = match due_by (now (env w) + e) (timers (env w)) with
    | [] => copiedId (ui w)
    | _ :: _ => None
    end.
Proof. unfold elapse, run_timers_until. cbn. apply clear_all_copiedId. Qed.

Lemma elapse_env (e : Z) (w : World) :
  env (elapse e w)
  = set_now (now (env w) + e)
      (set_timers (pending_after (now (env w) + e) (timers (env w))) (env w)).
Proof. unfold elapse, run_timers_until. cbn. rewrite clear_all_env. reflexivity. Qed.

(** A fulfilled copy through the clipboard API: the marker is on the
    record, the success toast is shown, and a reset is queued
    [COPIED_RESET_DELAY] from now. *)
Lemma copy_fulfilled_spec (p : Prompt.t) (w : World) :
  navigator_clipboard (env w) = true ->
  copy_fulfilled p w
  = (w |> setCopiedId (Some (Prompt.id p)) |> toast copied_toast
       |> setTimeout COPIED_RESET_DELAY).
Proof.
  intros Hclip. unfold copy_fulfilled, dispatch, handleCopyClick.
  rewrite Hclip. reflexivity.
Qed.

(** The three effects of a successful copy, read back. *)
Lemma marked_copiedId (x : option Z) (t : Toast) (d : Z) (w : World) :
  copiedId (ui (w |> setCopiedId x |> toast t |> setTimeout d)) = x.
Proof. reflexivity. Qed.

Lemma marked_now (x : option Z) (t : Toast) (d : Z) (w : World) :
  now (env (w |> setCopiedId x |> toast t |> setTimeout d)) = now (env w).
Proof. reflexivity. Qed.

Lemma marked_timers (x : option Z) (t : Toast) (d : Z) (w : World) :
  timers (env (w |> setCopiedId x |> toast t |> setTimeout d))
  = (timers (env w) ++ [now (env w) + d])%list.
Proof. reflexivity. Qed.

Lemma elapse_now (e : Z) (w : World) : now (env (elapse e w)) = now (env w) + e.
Proof. rewrite elapse_env. reflexivity. Qed.

Lemma elapse_timers (e : Z) (w : World) :
  timers (env (elapse e w)) = pending_after (now (env w) + e) (timers (env w)).
Proof. rewrite elapse_env. reflexivity. Qed.

Lemma elapse_navigator_clipboard (e : Z) (w : World) :
  navigator_clipboard (env (elapse e w)) = navigator_clipboard (env w).
Proof. rewrite elapse_env. reflexivity. Qed.

End WiredClock.

Section Copied.
Import Wired.

(** C7 as stated fails: prompt 1 is copied at time 0 and prompt 3 at time
    1500; the marker is then on prompt 3, but 500 ms later the reset queued
    by the first copy fires and the marker is neutral, long before the
    fixed delay has passed since the second copy. *)
Lemma C7_second_marker_cut_short :
  copiedId (ui two_copies) = Some 3 /\
  copiedId (ui (elapse 500 two_copies)) = None /\
  ~ (forall e, 0 <= e < COPIED_RESET_DELAY ->
               copiedId (ui (elapse e two_copies)) = Some 3).
Proof.
  split; [reflexivity|]. split; [reflexivity|].
  intros Hlasts. specialize (Hlasts 500). discriminate Hlasts.
  unfold COPIED_RESET_DELAY. lia.
Qed.

(** C7, amended. With the clipboard API present and no reset pending, a
    fulfilled copy of record [a] sets the marker to [a]'s id and queues
    one reset [COPIED_RESET_DELAY] later; the marker stays until then and
    is neutral afterwards.  A second fulfilled copy, of record [b], [dt]
    ms later and before the first reset, moves the marker to [b] (so the
    marker of a different record [a] is no longer active) and queues a
    second reset; the first reset is not cancelled, so the marker of [b]
    lasts only until the first reset fires, [COPIED_RESET_DELAY - dt]
    after the second copy, and is neutral from then on. *)
Theorem C7_marker_follows_resets (w : World) (a b : Prompt.t) (dt : Z)
    (Hclip : navigator_clipboard (env w) = true)
    (Hquiet : timers (env w) = [])
    (Hdt : 0 <= dt < COPIED_RESET_DELAY) :
  let w1 := copy_fulfilled a w in
  let w2 := copy_fulfilled b (elapse dt w1) in
  copiedId (ui w1) = Some (Prompt.id a) /\
  timers (env w1) = [now (env w) + COPIED_RESET_DELAY] /\
  (forall e, 0 <= e < COPIED_RESET_DELAY ->
     copiedId (ui (elapse e w1)) = Some (Prompt.id a)) /\
  (forall e, COPIED_RESET_DELAY <= e -> copiedId (ui (elapse e w1)) = None) /\
  copiedId (ui w2) = Some (Prompt.id b) /\
  (Prompt.id a <> Prompt.id b -> copiedId (ui w2) <> Some (Prompt.id a)) /\
  timers (env w2)
    = [now (env w) + COPIED_RESET_DELAY; now (env w) + dt + COPIED_RESET_DELAY] /\
  (forall e, 0 <= e < COPIED_RESET_DELAY - dt ->
     copiedId (ui (elapse e w2)) = Some (Prompt.id b)) /\
  (forall e, COPIED_RESET_DELAY - dt <= e -> copiedId (ui (elapse e w2)) = None).
Proof.
  intros w1 w2.
  assert (Hw1 : w1 = (w |> setCopiedId (Some (Prompt.id a)) |> toast copied_toast
                        |> setTimeout COPIED_RESET_DELAY))
    by (apply copy_fulfilled_spec; exact Hclip).
  assert (Ht1 : timers (env w1) = [now (env w) + COPIED_RESET_DELAY])
    by (rewrite Hw1, marked_timers, Hquiet; reflexivity).
  assert (Hn1 : now (env w1) = now (env w)) by (rewrite Hw1; apply marked_now).
  assert (Hc1 : navigator_clipboard (env (elapse dt w1)) = true)
    by (rewrite elapse_navigator_clipboard, Hw1; exact Hclip).
  assert (Hw2 : w2 = (elapse dt w1 |> setCopiedId (Some (Prompt.id b))
                        |> toast copied_toast |> setTimeout COPIED_RESET_DELAY))
    by (apply copy_fulfilled_spec; exact Hc1).
  assert (Hn2 : now (env w2) = now (env w) + dt)
    by (rewrite Hw2, marked_now, elapse_now, Hn1; reflexivity).
  assert (Ht2 : timers (env w2)
                = [now (env w) + COPIED_RESET_DELAY;
                   now (env w) + dt + COPIED_RESET_DELAY]).
  { rewrite Hw2, marked_timers, elapse_timers, elapse_now, Ht1, Hn1.
    rewrite pending_after_cons. case_decide; [reflexivity | lia]. }
  assert (Hm2 : copiedId (ui w2) = Some (Prompt.id b))
    by (rewrite Hw2; apply marked_copiedId).
  repeat split.
  - rewrite Hw1. reflexivity.
  - exact Ht1.
  - intros e He. rewrite elapse_copiedId, Ht1, Hn1, due_by_cons.
    case_decide; [lia|]. rewrite Hw1. reflexivity.
  - intros e He. rewrite elapse_copiedId, Ht1, Hn1, due_by_cons.
    case_decide; [reflexivity | lia].
  - exact Hm2.
  - rewrite Hm2. congruence.
  - exact Ht2.
  - intros e He. rewrite elapse_copiedId, Ht2, Hn2, !due_by_cons.
    repeat case_decide; try lia. exact Hm2.
  - intros e He. rewrite elapse_copiedId, Ht2, Hn2, !due_by_cons.
    repeat case_decide; try lia; reflexivity.
Qed.

(** Prompt 1 is copied at time 0 and prompt 3 at time 1500: the marker of
    prompt 3 is still there 499 ms later and gone after 500 ms. *)
Lemma C7_witness :
  navigator_clipboard (env mounted) = true /\
  timers (env mounted) = [] /\
  0 <= 1500 < COPIED_RESET_DELAY /\
  copiedId (ui (copy_fulfilled prompt_1 mounted)) = Some 1 /\
  copiedId (ui two_copies) = Some 3 /\
  timers (env two_copies) = [2000; 3500] /\
  copiedId (ui (elapse 499 two_copies)) = Some 3 /\
  copiedId (ui (elapse 500 two_copies)) = None /\
  copiedId (ui (elapse 2000 two_copies)) = None.
Proof.
  split; [reflexivity|]. split; [reflexivity|].
  split; [unfold COPIED_RESET_DELAY; lia|].
  destruct (C7_marker_follows_resets mounted prompt_1 prompt_3 1500
              eq_refl eq_refl ltac:(unfold COPIED_RESET_DELAY; lia))
    as (Hfirst & _ & _ & _ & Hsecond & _ & Htimers & Hbefore & Hafter).
  split; [exact Hfirst|]. split; [exact Hsecond|]. split; [exact Htimers|].
  split; [apply (Hbefore 499); unfold COPIED_RESET_DELAY; lia|].
  split; [apply (Hafter 500); unfold COPIED_RESET_DELAY; lia|].
  apply (Hafter 2000). unfold COPIED_RESET_DELAY. lia.
Defined.

End Copied.

(** ** The legacy copy fallback *)

Lemma filter_all {A} (P : A -> Prop) `{!forall x, Decision (P x)} (l : list A) :
  Forall P l -> filter P l = l.
Proof.
  induction 1 as [|x l Hx _ IH]; [reflexivity|].
  rewrite filter_cons_True by exact Hx. rewrite IH. reflexivity.
Qed.

(** Appending an element that is not yet a child and removing it again gives
    the body back. *)
Lemma append_then_remove (el : Element) (b : Browser) :
  Forall (fun c => node c <> node el) (body b) ->
  body (browser_removeChild el (browser_appendChild el b)) = body b.
Proof.
  intros Hfresh. unfold browser_removeChild, browser_appendChild. cbn.
  rewrite list.filter_app, filter_cons_False, filter_nil, app_nil_r
    by (intros Hne; apply Hne; reflexivity).
  apply filter_all. exact Hfresh.
Qed.

(** An element created now is none of the children. *)
Lemma created_is_fresh (tag : string) (b : Browser) :
  body_allocated b ->
  Forall (fun c => node c <> node (fst (browser_createElement tag b))) (body b).
Proof.
  unfold body_allocated. intros Halloc.
  eapply Forall_impl; [|exact Halloc]. cbn. intros c Hc. lia.
Qed.

(** Once removed, the element is not among the children. *)
Lemma removed_not_child (el : Element) (b : Browser) (c : Element) :
  c ∈ body (browser_removeChild el b) -> node c <> node el.
Proof.
  unfold browser_removeChild. cbn. intros Hc.
  apply list_elem_of_filter in Hc. tauto.
Qed.

Section Fallback.
Import Wired.

(** C8. Without [navigator.clipboard] the handler finishes synchronously;
    whatever the legacy copy command does (returns true, returns false,
    throws), the text holder it appended to the body is removed again:
    the body has the children it had before and none of them is the
    holder.  When the legacy command does not succeed the marker is left
    as it was, and so it is when the clipboard API is present and its
    write is rejected: a failed copy marks no record. *)
Theorem C8_holder_removed_and_no_mark_on_failure
    (w v : World) (content : string) (promptId : Z)
    (Hlegacy : navigator_clipboard (env w) = false)
    (Halloc : body_allocated (env w))
    (Hmodern : navigator_clipboard (env v) = true) :
  (exists w',
     handleCopyClick content promptId w = Done w' /\
     body (env w') = body (env w) /\
     (forall c, c ∈ body (env w') -> node c <> next_node (env w)) /\
     (execCommand_copy (env w) <> exec_true ->
        copiedId (ui w') = copiedId (ui w) /\
        toasts (env w') = (toasts (env w) ++ [copy_failed_toast])%list)) /\
  (exists k,
     handleCopyClick content promptId v = Await v (clipboard_writeText content) k /\
     forall err v',
       copiedId (ui (k (Rejected err) v')) = copiedId (ui v') /\
       timers (env (k (Rejected err) v')) = timers (env v') /\
       toasts (env (k (Rejected err) v')) = (toasts (env v') ++ [copy_failed_toast])%list).
Proof.
  split.
  - unfold handleCopyClick. rewrite Hlegacy. cbn [negb].
    unfold createElement, browser_createElement.
    eexists. split; [reflexivity|].
    set (ta := fallback_textArea _ content).
    assert (Hfresh : node ta = next_node (env w)) by reflexivity.
    split; [|split].
    + pose proof (created_is_fresh "textarea" (env w) Halloc) as Hnew.
      destruct (execCommand_copy (env w)) eqn:Hexec; cbn; rewrite Hexec; cbn;
        apply (append_then_remove ta (set_next_node (S (next_node (env w))) (env w)));
        exact Hnew.
    + intros c Hc. rewrite <- Hfresh.
      destruct (execCommand_copy (env w)) eqn:Hexec; cbn in Hc; rewrite Hexec in Hc;
        eapply removed_not_child; exact Hc.
    + intros Hfail.
      destruct (execCommand_copy (env w)) eqn:Hexec; [contradiction| |];
        cbn; rewrite Hexec; split; reflexivity.
  - unfold handleCopyClick. rewrite Hmodern. cbn [negb].
    eexists. split; [reflexivity|]. intros err v'. repeat split.
Qed.

(** The legacy command answers false on a page whose body holds one
    element; and the clipboard write is rejected on a modern browser. *)
Lemma C8_witness :
  navigator_clipboard (env (mounted_legacy exec_false)) = false /\
  body_allocated (env (mounted_legacy exec_false)) /\
  navigator_clipboard (env mounted) = true /\
  (exists w',
     handleCopyClick "hello" 1 (mounted_legacy exec_false) = Done w' /\
     body (env w') = body (env (mounted_legacy exec_false)) /\
     copiedId (ui w') = None) /\
  (exists k,
     handleCopyClick "hello" 1 mounted = Await mounted (clipboard_writeText "hello") k /\
     copiedId (ui (k (Rejected NotAnError) mounted)) = None).
Proof.
  assert (Halloc : body_allocated (env (mounted_legacy exec_false))).
  { unfold body_allocated. cbn. repeat constructor. }
  split; [reflexivity|]. split; [exact Halloc|]. split; [reflexivity|].
  destruct (C8_holder_removed_and_no_mark_on_failure
              (mounted_legacy exec_false) mounted "hello" 1 eq_refl Halloc eq_refl)
    as [(w' & Hdone & Hbody & _ & Hfail) (k & Hk & Hrej)].
  split.
  - exists w'. split; [exact Hdone|]. split; [exact Hbody|].
    destruct Hfail as [Hmark _]; [discriminate|]. exact Hmark.
  - exists k. split; [exact Hk|].
    destruct (Hrej NotAnError mounted) as (Hmark & _). exact Hmark.
Defined.

End Fallback.

(** ** The two versions compared *)

Lemma same_step_settle s s' :
  same_step s s' ->
  forall answer, forget (settle_now answer s) = settle_now answer s'.
Proof.
  intros Hsame answer. destruct Hsame as [w | A w call k k' Hk]; cbn.
  - reflexivity.
  - apply Hk.
Qed.

(** The earlier version's copy button: with the clipboard API present the
    record is marked and the reset queued at the click, and the outcome of
    the write changes nothing afterwards. *)
Lemma placeholder_copy_marks_at_once (p : Prompt.t) (v : Placeholder.World)
    (answer : forall A, Collaborator A -> Settled A) :
  navigator_clipboard (Placeholder.env v) = true ->
  settle_now answer (Placeholder.dispatch (Placeholder.click_copy p) v)
  = (v |> Placeholder.setCopiedId (Some (Prompt.id p))
       |> Placeholder.setTimeout COPIED_RESET_DELAY).
Proof.
  intros Hclip. cbn. unfold Placeholder.copy_onClick. rewrite Hclip. reflexivity.
Qed.

(** C9 as stated fails on copy: when the clipboard write is rejected, the
    earlier version has already marked the record as copied and queued the
    reset, while the later version marks nothing and shows the failure
    toast. *)
Lemma C9_copy_differs :
  Wired.copiedId (Wired.ui (settle_now (all_rejected NotAnError)
     (Wired.dispatch (Wired.click_copy prompt_1) mounted))) = None /\
  Placeholder.copiedId (Placeholder.ui (settle_now (all_rejected NotAnError)
     (Placeholder.dispatch (Placeholder.click_copy prompt_1) (forget mounted)))) = Some 1 /\
  ~ same_step (Wired.dispatch (Wired.click_copy prompt_1) mounted)
              (Placeholder.dispatch (Placeholder.click_copy prompt_1) (forget mounted)).
Proof.
  split; [reflexivity|]. split; [reflexivity|].
  intros Hsame.
  apply same_step_settle with (answer := all_rejected NotAnError) in Hsame.
  apply (f_equal (fun v => Placeholder.copiedId (Placeholder.ui v))) in Hsame.
  discriminate Hsame.
Qed.

(** C9, amended. On every form event (open for create, open for edit, field
    change, submit, cancel, outside click) and in every state the two
    versions do the same: they finish in matching worlds or await the same
    create or update call, and however that call settles, in whatever state,
    their continuations lead to matching worlds.  The delete button of the
    earlier version changes nothing, where the later version records the
    target and opens the confirmation. *)
Theorem C9_form_behaviour_coincides :
  (forall (ev : FormEvent) (w : Wired.World),
     same_step (Wired.dispatch (wired_event ev) w)
               (Placeholder.dispatch (placeholder_event ev) (forget w))) /\
  (forall (promptId : Z) (w : Wired.World),
     Placeholder.dispatch (Placeholder.click_delete promptId) (forget w)
       = Done (forget w) /\
     Wired.dispatch (Wired.click_delete promptId) w
       = Done (Wired.handleDeleteClick promptId w) /\
     Wired.promptToDelete (Wired.ui (Wired.handleDeleteClick promptId w)) = Some promptId /\
     Wired.deleteDialogOpen (Wired.ui (Wired.handleDeleteClick promptId w)) = true).
Proof.
  split.
  - intros ev w. destruct ev; cbn.
    + exact (same_done _).
    + exact (same_done _).
    + unfold Wired.input_disabled, Placeholder.input_disabled. cbn.
      destruct (Wired.isSubmitting (Wired.ui w)); exact (same_done _).
    + unfold Wired.submit_disabled, Placeholder.submit_disabled. cbn.
      destruct (Wired.isSubmitting (Wired.ui w)); [exact (same_done _)|].
      unfold Wired.handleSubmit, Placeholder.handleSubmit. cbn.
      destruct (Wired.editingId (Wired.ui w)) as [target|];
        refine (same_await _ _ _ _ _);
        intros [p|err] w'; reflexivity.
    + unfold Wired.cancel_disabled, Placeholder.cancel_disabled. cbn.
      destruct (Wired.isSubmitting (Wired.ui w)); exact (same_done _).
    + unfold Wired.onInteractOutside_prevents, Placeholder.onInteractOutside_prevents.
      cbn. destruct (Wired.isSubmitting (Wired.ui w)); exact (same_done _).
  - intros promptId w. repeat split.
Qed.

(** * Further properties of the handlers *)

(** ** The draft *)

Section Draft.
Import Wired.

(** X1. [handleInputChange] writes the one input it is called for: that field
    of the draft holds the new value, the other fields and everything outside
    the draft are as before; writing the same input again keeps the last
    value only, and writes to different inputs can be done in either order. *)
Theorem X1_input_change_writes_one_field
    (name other : InputName) (value value' : string) (w : World)
    (Hother : other <> name) :
  field name (formData (ui (handleInputChange name value w))) = value /\
  field other (formData (ui (handleInputChange name value w)))
    = field other (formData (ui w)) /\
  handleInputChange name value' (handleInputChange name value w)
    = handleInputChange name value' w /\
  handleInputChange other value' (handleInputChange name value w)
    = handleInputChange name value (handleInputChange other value' w) /\
  prompts (ui (handleInputChange name value w)) = prompts (ui w) /\
  editingId (ui (handleInputChange name value w)) = editingId (ui w) /\
  isFormOpen (ui (handleInputChange name value w)) = isFormOpen (ui w) /\
  env (handleInputChange name value w) = env w.
Proof.
  destruct name, other; try congruence; repeat split.
Qed.

Lemma X1_witness :
  input_description <> input_name /\
  field input_name
    (formData (ui (handleInputChange input_name "B" (handleEditClick prompt_3 mounted))))
    = "B" /\
  field input_description
    (formData (ui (handleInputChange input_name "B" (handleEditClick prompt_3 mounted))))
    = "d".
Proof.
  assert (Hne : input_description <> input_name) by discriminate.
  split; [exact Hne|].
  destruct (X1_input_change_writes_one_field input_name input_description "B" "B"
              (handleEditClick prompt_3 mounted) Hne) as (Hn & Hd & _).
  split; [exact Hn | exact Hd].
Defined.

End Draft.

(** ** The collection under update and delete *)

Lemma replace_by_own_id (p : Prompt.t) (l : list Prompt.t) :
  NoDup (ids l) -> p ∈ l ->
  (fun q => if decide (Prompt.id q = Prompt.id p) then p else q) <$> l = l.
Proof.
  unfold ids. induction l as [|q l IH]; intros Hnd Hin; [reflexivity|].
  rewrite fmap_cons in Hnd. apply list.NoDup_cons in Hnd as [Hq Hnd].
  assert (Hrest : forall r, r ∈ l -> Prompt.id r <> Prompt.id q).
  { intros r Hr Heq. apply Hq. rewrite <- Heq.
    apply list_elem_of_fmap. exists r. split; [reflexivity | exact Hr]. }
  cbn. apply elem_of_cons in Hin as [-> | Hin].
  - rewrite decide_True by reflexivity. f_equal.
    clear IH Hnd Hq. induction l as [|r l IHl]; [reflexivity|].
    cbn. rewrite decide_False by (apply Hrest; left).
    f_equal. apply IHl. intros r' Hr'. apply Hrest. right. exact Hr'.
  - rewrite decide_False by (intros Heq; apply (Hrest p Hin); symmetry; exact Heq).
    f_equal. apply IH; assumption.
Qed.

Lemma replace_keeps_ids (target : Z) (updated : Prompt.t) (l : list Prompt.t) :
  Prompt.id updated = target ->
  ids ((fun q => if decide (Prompt.id q = target) then updated else q) <$> l) = ids l.
Proof.
  intros Hid. unfold ids. induction l as [|q l IH]; [reflexivity|].
  cbn. rewrite IH. f_equal. case_decide; congruence.
Qed.

Lemma replace_absent (target : Z) (updated : Prompt.t) (l : list Prompt.t) :
  target ∉ ids l ->
  (fun q => if decide (Prompt.id q = target) then updated else q) <$> l = l.
Proof.
  unfold ids. induction l as [|q l IH]; intros Habs; [reflexivity|].
  rewrite fmap_cons in Habs. apply not_elem_of_cons in Habs as [Hq Habs].
  cbn. rewrite decide_False by congruence. f_equal. apply IH. exact Habs.
Qed.

Lemma ids_filter_out (target : Z) (l : list Prompt.t) :
  ids (filter (fun p => Prompt.id p <> target) l)
  = filter (fun i => i <> target) (ids l).
Proof.
  unfold ids. induction l as [|q l IH]; [reflexivity|].
  rewrite fmap_cons, !filter_cons.
  destruct (decide (Prompt.id q <> target)); cbn; rewrite IH; reflexivity.
Qed.

Lemma filter_out_absent (target : Z) (l : list Prompt.t) :
  target ∉ ids l -> filter (fun p => Prompt.id p <> target) l = l.
Proof.
  unfold ids. induction l as [|q l IH]; intros Habs; [reflexivity|].
  rewrite fmap_cons in Habs. apply not_elem_of_cons in Habs as [Hq Habs].
  rewrite filter_cons_True by congruence. f_equal. apply IH. exact Habs.
Qed.

Lemma filter_out_replaced (target : Z) (updated : Prompt.t) (l : list Prompt.t) :
  Prompt.id updated = target ->
  filter (fun p => Prompt.id p <> target)
         ((fun q => if decide (Prompt.id q = target) then updated else q) <$> l)
  = filter (fun p => Prompt.id p <> target) l.
Proof.
  intros Hid. induction l as [|q l IH]; [reflexivity|].
  rewrite fmap_cons, !filter_cons, IH.
  destruct (decide (Prompt.id q = target)) as [Heq|Hne];
    repeat case_decide; congruence.
Qed.

Lemma length_filter_out_unique (target : Z) (l : list Prompt.t) :
  NoDup (ids l) -> target ∈ ids l ->
  S (length (filter (fun p => Prompt.id p <> target) l)) = length l.
Proof.
  unfold ids. induction l as [|q l IH]; intros Hnd Hin.
  - inversion Hin.
  - rewrite fmap_cons in Hnd, Hin. apply list.NoDup_cons in Hnd as [Hq Hnd].
    apply elem_of_cons in Hin as [Heq | Hin].
    + rewrite filter_cons_False by (intros Hne; apply Hne; symmetry; exact Heq).
      rewrite (filter_out_absent target l) by (rewrite Heq; exact Hq). reflexivity.
    + rewrite filter_cons_True by (intros Heq; apply Hq; rewrite Heq; exact Hin).
      cbn. f_equal. apply IH; assumption.
Qed.

Section Collection.
Import Wired.

(** X2. Opening the edit form on a record and submitting it untouched sends
    [updatePrompt] the record's own id and fields; when the collaborator
    answers with that same record, and the collection found then shows the
    record and has no two records with one id, the collection is unchanged. *)
Theorem X2_untouched_edit_round_trip (w w' : World) (p : Prompt.t)
    (Hunique : NoDup (ids (prompts (ui w'))))
    (Hshown : p ∈ prompts (ui w')) :
  exists k,
    handleSubmit (handleEditClick p w)
      = Await (handleEditClick p w |> setIsSubmitting true |> setError None)
              (updatePrompt (Prompt.id p)
                 (FormData.mk (Prompt.name p) (Prompt.description p) (Prompt.content p)))
              k /\
    prompts (ui (k (Fulfilled p) w')) = prompts (ui w').
Proof.
  eexists. split; [reflexivity|].
  cbn. apply replace_by_own_id; assumption.
Qed.

Lemma X2_witness :
  NoDup (ids (prompts (ui mounted))) /\
  prompt_3 ∈ prompts (ui mounted) /\
  exists k,
    handleSubmit (handleEditClick prompt_3 mounted)
      = Await (handleEditClick prompt_3 mounted |> setIsSubmitting true |> setError None)
              (updatePrompt 3 (FormData.mk "A" "d" "c")) k /\
    prompts (ui (k (Fulfilled prompt_3) mounted)) = [prompt_1; prompt_3; prompt_5].
Proof.
  assert (Hunique : NoDup (ids (prompts (ui mounted))))
    by (apply (bool_decide_unpack _); vm_compute; exact I).
  assert (Hshown : prompt_3 ∈ prompts (ui mounted))
    by (apply list_elem_of_lookup; exists 1%nat; reflexivity).
  split; [exact Hunique|]. split; [exact Hshown|].
  destruct (X2_untouched_edit_round_trip mounted mounted prompt_3 Hunique Hshown)
    as (k & Hk & Hsame).
  exists k. split; [exact Hk | exact Hsame].
Defined.

(** X3. When the record returned by [updatePrompt] carries the id of the
    editing target, the update leaves the sequence of ids of the collection
    exactly as it was; in particular ids that were unique stay unique. *)
Theorem X3_update_keeps_ids (w w' : World) (target : Z) (updatedPrompt : Prompt.t)
    (Hedit : editingId (ui w) = Some target)
    (Hid : Prompt.id updatedPrompt = target) :
  exists k,
    handleSubmit w
      = Await (w |> setIsSubmitting true |> setError None)
              (updatePrompt target (formData (ui w))) k /\
    ids (prompts (ui (k (Fulfilled updatedPrompt) w'))) = ids (prompts (ui w')) /\
    (NoDup (ids (prompts (ui w'))) ->
     NoDup (ids (prompts (ui (k (Fulfilled updatedPrompt) w'))))).
Proof.
  unfold handleSubmit. rewrite Hedit. eexists. split; [reflexivity|].
  cbn. rewrite replace_keeps_ids by exact Hid. split; [reflexivity | tauto].
Qed.

Lemma X3_witness :
  editingId (ui editing_3) = Some 3 /\
  Prompt.id prompt_3_renamed = 3 /\
  exists k,
    handleSubmit editing_3
      = Await edit_in_flight (updatePrompt 3 (FormData.mk "B" "d" "c")) k /\
    ids (prompts (ui (k (Fulfilled prompt_3_renamed) edit_in_flight))) = [1; 3; 5].
Proof.
  split; [reflexivity|]. split; [reflexivity|].
  destruct (X3_update_keeps_ids editing_3 edit_in_flight 3 prompt_3_renamed
              eq_refl eq_refl) as (k & Hk & Hids & _).
  exists k. split; [exact Hk | exact Hids].
Defined.

(** X4. After a confirmed delete is fulfilled no record with the target id
    is left.  If no record had that id the collection is unchanged; if the
    ids were unique they still are, and when the target was shown the
    collection is shorter by exactly one. *)
Theorem X4_delete_removes_the_id (w w' : World) (target : Z)
    (Hpending : promptToDelete (ui w) = Some target) :
  exists k,
    handleDeleteConfirm w = Await (setIsDeleting true w) (deletePrompt target) k /\
    (target ∉ ids (prompts (ui (k (Fulfilled tt) w')))) /\
    ((target ∉ ids (prompts (ui w'))) ->
     prompts (ui (k (Fulfilled tt) w')) = prompts (ui w')) /\
    (NoDup (ids (prompts (ui w'))) ->
     NoDup (ids (prompts (ui (k (Fulfilled tt) w'))))) /\
    (NoDup (ids (prompts (ui w'))) -> target ∈ ids (prompts (ui w')) ->
     S (length (prompts (ui (k (Fulfilled tt) w')))) = length (prompts (ui w'))).
Proof.
  unfold handleDeleteConfirm. rewrite Hpending. eexists. split; [reflexivity|].
  cbn. repeat split.
  - rewrite ids_filter_out. intros Hin. apply list_elem_of_filter in Hin.
    destruct Hin as [Hne _]. apply Hne. reflexivity.
  - apply filter_out_absent.
  - intros Hnd. rewrite ids_filter_out. apply list.NoDup_filter. exact Hnd.
  - apply length_filter_out_unique.
Qed.

Lemma X4_witness :
  promptToDelete (ui confirming_5) = Some 5 /\
  exists k,
    handleDeleteConfirm confirming_5
      = Await (setIsDeleting true confirming_5) (deletePrompt 5) k /\
    (5 ∉ ids (prompts (ui (k (Fulfilled tt) (setIsDeleting true confirming_5))))).
Proof.
  split; [reflexivity|].
  destruct (X4_delete_removes_the_id confirming_5 (setIsDeleting true confirming_5) 5
              eq_refl) as (k & Hk & Hgone & _).
  exists k. split; [exact Hk | exact Hgone].
Defined.

(** X5. An update and a delete of the same id that are both in flight: when
    the delete settles first, the later answer of the update finds no record
    to replace and the record does not come back; when the update settles
    first and returns the target's id, the delete removes the updated record.
    Either way the collection is the one found with the target filtered out. *)
Theorem X5_delete_wins_over_update (w wd w' : World) (target : Z)
    (updatedPrompt : Prompt.t)
    (Hedit : editingId (ui w) = Some target)
    (Hpending : promptToDelete (ui wd) = Some target)
    (Hid : Prompt.id updatedPrompt = target) :
  exists ku kd,
    handleSubmit w
      = Await (w |> setIsSubmitting true |> setError None)
              (updatePrompt target (formData (ui w))) ku /\
    handleDeleteConfirm wd = Await (setIsDeleting true wd) (deletePrompt target) kd /\
    prompts (ui (ku (Fulfilled updatedPrompt) (kd (Fulfilled tt) w')))
      = filter (fun p => Prompt.id p <> target) (prompts (ui w')) /\
    prompts (ui (kd (Fulfilled tt) (ku (Fulfilled updatedPrompt) w')))
      = filter (fun p => Prompt.id p <> target) (prompts (ui w')).
Proof.
  unfold handleSubmit, handleDeleteConfirm. rewrite Hedit, Hpending.
  do 2 eexists. split; [reflexivity|]. split; [reflexivity|].
  cbn. split.
  - apply replace_absent. rewrite ids_filter_out. intros Hin.
    apply list_elem_of_filter in Hin. destruct Hin as [Hne _]. apply Hne. reflexivity.
  - apply filter_out_replaced. exact Hid.
Qed.

Lemma X5_witness :
  editingId (ui editing_3) = Some 3 /\
  promptToDelete (ui (handleDeleteClick 3 edit_in_flight)) = Some 3 /\
  Prompt.id prompt_3_renamed = 3 /\
  exists ku kd,
    handleSubmit editing_3
      = Await edit_in_flight (updatePrompt 3 (FormData.mk "B" "d" "c")) ku /\
    handleDeleteConfirm (handleDeleteClick 3 edit_in_flight)
      = Await (setIsDeleting true (handleDeleteClick 3 edit_in_flight))
              (deletePrompt 3) kd /\
    prompts (ui (ku (Fulfilled prompt_3_renamed) (kd (Fulfilled tt) edit_in_flight)))
      = [prompt_1; prompt_5].
Proof.
  split; [reflexivity|]. split; [reflexivity|]. split; [reflexivity|].
  destruct (X5_delete_wins_over_update editing_3 (handleDeleteClick 3 edit_in_flight)
              edit_in_flight 3 prompt_3_renamed eq_refl eq_refl eq_refl)
    as (ku & kd & Hku & Hkd & Hfirst & _).
  exists ku, kd. split; [exact Hku|]. split; [exact Hkd|]. exact Hfirst.
Defined.

(** X6. A created record is prepended without looking at the ids already
    shown: afterwards the ids are unique exactly when they were unique
    before and the new record's id was not among them. *)
Theorem X6_create_does_not_deduplicate (w w' : World) (newPrompt : Prompt.t)
    (Hcreate : editingId (ui w) = None) :
  exists k,
    handleSubmit w
      = Await (w |> setIsSubmitting true |> setError None)
              (createPrompt (formData (ui w))) k /\
    ids (prompts (ui (k (Fulfilled newPrompt) w')))
      = Prompt.id newPrompt :: ids (prompts (ui w')) /\
    (NoDup (ids (prompts (ui (k (Fulfilled newPrompt) w')))) <->
     (Prompt.id newPrompt ∉ ids (prompts (ui w'))) /\ NoDup (ids (prompts (ui w')))).
Proof.
  unfold handleSubmit. rewrite Hcreate. eexists. split; [reflexivity|].
  cbn. split; [reflexivity|]. unfold ids. cbn. apply list.NoDup_cons.
Qed.

Lemma X6_witness :
  editingId (ui creating) = None /\
  exists k,
    handleSubmit creating
      = Await create_in_flight (createPrompt (FormData.mk "A" "d" "c")) k /\
    ids (prompts (ui (k (Fulfilled prompt_3) create_in_flight))) = [3; 1; 3; 5] /\
    ~ NoDup (ids (prompts (ui (k (Fulfilled prompt_3) create_in_flight)))).
Proof.
  split; [reflexivity|].
  destruct (X6_create_does_not_deduplicate creating create_in_flight prompt_3 eq_refl)
    as (k & Hk & Hids & Hnd).
  exists k. split; [exact Hk|]. split; [exact Hids|].
  intros Hdup. apply Hnd in Hdup. destruct Hdup as [Hfresh _].
  apply Hfresh. apply list_elem_of_lookup. exists 1%nat. reflexivity.
Defined.

End Collection.

(** ** What the dialog shows *)

Section Shown.
Import Wired.

(** X7. The dialog title and the submit button test [editingId] for
    truthiness while [handleSubmit] tests it against [null]: in edit mode
    the title reads "Edit Prompt" and the button "Save Changes" exactly
    when the target id is not 0; for the id 0 they read "Create New Prompt"
    and "Create Prompt", and submitting still calls [updatePrompt]. *)
Theorem X7_labels_test_truthiness (w : World) (target : Z)
    (Hedit : editingId (ui w) = Some target)
    (Hidle : isSubmitting (ui w) = false) :
  (dialogTitle w = "Edit Prompt" <-> target <> 0) /\
  (dialogTitle w = "Create New Prompt" <-> target = 0) /\
  (submit_label w = "Save Changes" <-> target <> 0) /\
  (submit_label w = "Create Prompt" <-> target = 0) /\
  exists k,
    handleSubmit w
      = Await (w |> setIsSubmitting true |> setError None)
              (updatePrompt target (formData (ui w))) k.
Proof.
  unfold dialogTitle, submit_label, handleSubmit, truthy_number.
  rewrite Hedit, Hidle.
  destruct (Z.eqb_spec target 0) as [Hz|Hnz]; cbn;
    (repeat split; try congruence; try discriminate; try (eexists; reflexivity)).
Qed.

Lemma X7_witness :
  editingId (ui (handleEditClick (Prompt.mk 0 "Zero" "z" "zz") mounted)) = Some 0 /\
  isSubmitting (ui (handleEditClick (Prompt.mk 0 "Zero" "z" "zz") mounted)) = false /\
  dialogTitle (handleEditClick (Prompt.mk 0 "Zero" "z" "zz") mounted)
    = "Create New Prompt" /\
  exists k,
    handleSubmit (handleEditClick (Prompt.mk 0 "Zero" "z" "zz") mounted)
      = Await (handleEditClick (Prompt.mk 0 "Zero" "z" "zz") mounted
                 |> setIsSubmitting true |> setError None)
              (updatePrompt 0 (FormData.mk "Zero" "z" "zz")) k.
Proof.
  split; [reflexivity|]. split; [reflexivity|].
  destruct (X7_labels_test_truthiness
              (handleEditClick (Prompt.mk 0 "Zero" "z" "zz") mounted) 0 eq_refl eq_refl)
    as (_ & Htitle & _ & _ & k & Hk).
  split; [apply Htitle; reflexivity|].
  exists k. exact Hk.
Defined.

(** X8. After a rejected save the error paragraph shows the failure's
    message when it is not empty and the fallback text when the failure is
    not an [Error]; for an [Error] with an empty message the error cell is
    set but no paragraph is rendered. *)
Theorem X8_error_paragraph_after_failed_save (w w' : World) (message : string)
    (Hmessage : message <> "") :
  exists (call : Collaborator Prompt.t) k,
    handleSubmit w = Await (w |> setIsSubmitting true |> setError None) call k /\
    error_paragraph (k (Rejected (ErrorInstance message)) w') = Some message /\
    error_paragraph (k (Rejected NotAnError) w') = Some "Failed to save prompt." /\
    error (ui (k (Rejected (ErrorInstance "")) w')) = Some "" /\
    error_paragraph (k (Rejected (ErrorInstance "")) w') = None.
Proof.
  unfold handleSubmit.
  destruct (editingId (ui w)); do 2 eexists; (split; [reflexivity|]);
    unfold error_paragraph; cbn; destruct message; try congruence; repeat split.
Qed.

Lemma X8_witness :
  "quota exceeded" <> "" /\
  exists (call : Collaborator Prompt.t) k,
    handleSubmit creating = Await create_in_flight call k /\
    error_paragraph (k (Rejected quota_exceeded) create_in_flight)
      = Some "quota exceeded" /\
    error_paragraph (k (Rejected (ErrorInstance "")) create_in_flight) = None.
Proof.
  assert (Hne : "quota exceeded" <> "") by discriminate.
  split; [exact Hne|].
  destruct (X8_error_paragraph_after_failed_save creating create_in_flight
              "quota exceeded" Hne) as (call & k & Hk & Hshown & _ & _ & Hhidden).
  exists call, k. split; [exact Hk|]. split; [exact Hshown | exact Hhidden].
Defined.

End Shown.

(** ** The delete flow as a whole *)

Section DeleteFlow.
Import Wired.







End DeleteFlow.

(** ** The form flow as a whole *)

Section FormFlow.
Import Wired.

(** X12. Starting with the form cells at rest: the create button, the three
    inputs and then [handleSubmit] send [createPrompt] exactly the typed
    draft.  Once fulfilled, the world is the starting one with the new
    record prepended, and nothing else differs; once rejected and then
    cancelled, the world is the starting one. *)
Theorem X12_create_cycle_frame (w : World) (name description content : string)
    (Hrest : form_at_rest w) :
  let filled :=
    after_events [click_create; change_input input_name name;
                  change_input input_description description;
                  change_input input_content content] w in
  let in_flight := filled |> setIsSubmitting true |> setError None in
  exists k,
    handleSubmit filled
      = Await in_flight (createPrompt (FormData.mk name description content)) k /\
    (forall newPrompt,
       k (Fulfilled newPrompt) in_flight
       = setPrompts (fun prevPrompts => newPrompt :: prevPrompts) w) /\
    (forall err,
       step_world (dispatch click_cancel (k (Rejected err) in_flight)) = w).
Proof.
  destruct Hrest as (Hopen & Hfd & Herr & Hsub & Heid).
  destruct w as [[ps cid hov open fd sub err dlg tgt del eid] e].
  cbn in Hopen, Hfd, Herr, Hsub, Heid. subst open fd err sub eid.
  eexists. repeat split.
Qed.

Lemma X12_witness :
  form_at_rest mounted /\
  exists k,
    handleSubmit creating
      = Await create_in_flight (createPrompt (FormData.mk "A" "d" "c")) k /\
    k (Fulfilled prompt_7) create_in_flight
      = setPrompts (fun prevPrompts => prompt_7 :: prevPrompts) mounted /\
    step_world (dispatch click_cancel (k (Rejected quota_exceeded) create_in_flight))
      = mounted.
Proof.
  assert (Hrest : form_at_rest mounted) by (repeat split).
  split; [exact Hrest|].
  destruct (X12_create_cycle_frame mounted "A" "d" "c" Hrest) as (k & Hk & Hok & Hfail).
  exists k. split; [exact Hk|]. split; [exact (Hok prompt_7) | exact (Hfail quota_exceeded)].
Defined.

(** X13. Starting with the form cells at rest, opening the edit form on any
    record, typing into it and then dismissing it, by the Cancel button or
    by an outside click, gives back the starting world: the draft is
    discarded and the collection untouched. *)
Theorem X13_edit_then_dismiss_round_trip (w : World) (p : Prompt.t)
    (name : InputName) (value : string)
    (Hrest : form_at_rest w) :
  after_events [click_edit p; change_input name value; click_cancel] w = w /\
  after_events [click_edit p; change_input name value; interact_outside] w = w.
Proof.
  destruct Hrest as (Hopen & Hfd & Herr & Hsub & Heid).
  destruct w as [[ps cid hov open fd sub err dlg tgt del eid] e].
  cbn in Hopen, Hfd, Herr, Hsub, Heid. subst open fd err sub eid.
  destruct name; split; reflexivity.
Qed.

Lemma X13_witness :
  form_at_rest mounted /\
  after_events [click_edit prompt_3; change_input input_name "B"; click_cancel] mounted
    = mounted.
Proof.
  assert (Hrest : form_at_rest mounted) by (repeat split).
  split; [exact Hrest|].
  exact (proj1 (X13_edit_then_dismiss_round_trip mounted prompt_3 input_name "B" Hrest)).
Defined.

(** X14. A rejected save keeps the draft and the editing target: running
    [handleSubmit] again on the state the rejection left issues the same
    call and is back in the same in-flight state, with the error cleared. *)
Theorem X14_retry_after_failure (w : World) (err : Thrown) :
  exists (call : Collaborator Prompt.t) k,
    handleSubmit w = Await (w |> setIsSubmitting true |> setError None) call k /\
    isSubmitting (ui (k (Rejected err) (w |> setIsSubmitting true |> setError None)))
      = false /\
    handleSubmit (k (Rejected err) (w |> setIsSubmitting true |> setError None))
      = Await (w |> setIsSubmitting true |> setError None) call k.
Proof.
  unfold handleSubmit.
  destruct (editingId (ui w)) as [target|] eqn:Hedit;
    do 2 eexists; (split; [reflexivity|]); (split; [reflexivity|]);
    cbn; rewrite Hedit; reflexivity.
Qed.


(** The passing of time touches the marker and the timer queue only. *)
Lemma clear_all_ui_frame (l : list Z) (w : World) :
  prompts (ui (fold_left (fun w' _ => setCopiedId None w') l w)) = prompts (ui w) /\
  formData (ui (fold_left (fun w' _ => setCopiedId None w') l w)) = formData (ui w) /\
  editingId (ui (fold_left (fun w' _ => setCopiedId None w') l w)) = editingId (ui w) /\
  isFormOpen (ui (fold_left (fun w' _ => setCopiedId None w') l w)) = isFormOpen (ui w).
Proof.
  revert w. induction l as [|d l IH]; intros w; [repeat split|].
  cbn. destruct (IH (setCopiedId None w)) as (H1 & H2 & H3 & H4).
  rewrite H1, H2, H3, H4. repeat split.
Qed.

(** X16. No user event changes the collection while its handler runs, in
    either version of the component, and neither does the passing of time:
    the collection only changes when a create, update or delete call
    settles (there is no optimistic update). *)
Theorem X16_collection_changes_only_on_settle :
  (forall (ev : UserEvent) (w : World),
     prompts (ui (step_world (dispatch ev w))) = prompts (ui w)) /\
  (forall (dt : Z) (w : World), prompts (ui (elapse dt w)) = prompts (ui w)) /\
  (forall (ev : Placeholder.UserEvent) (v : Placeholder.World),
     Placeholder.prompts (Placeholder.ui (step_world (Placeholder.dispatch ev v)))
     = Placeholder.prompts (Placeholder.ui v)).
Proof.
  split; [|split].
  - intros ev w. destruct ev; cbn; try reflexivity.
    + unfold input_disabled. destruct (isSubmitting (ui w)); reflexivity.
    + unfold submit_disabled, handleSubmit.
      destruct (isSubmitting (ui w)); [reflexivity|].
      destruct (editingId (ui w)); reflexivity.
    + unfold cancel_disabled. destruct (isSubmitting (ui w)); reflexivity.
    + unfold onInteractOutside_prevents. destruct (isSubmitting (ui w)); reflexivity.
    + unfold alertCancel_disabled. destruct (isDeleting (ui w)); reflexivity.
    + unfold alertAction_disabled, handleDeleteConfirm.
      destruct (isDeleting (ui w)); [reflexivity|].
      destruct (promptToDelete (ui w)); reflexivity.
    + unfold handleCopyClick.
      destruct (navigator_clipboard (env w)); cbn; [reflexivity|].
      destruct (execCommand_copy (env w)); reflexivity.
  - intros dt w. unfold elapse, run_timers_until. cbn.
    apply (clear_all_ui_frame _ w).
  - intros ev v. destruct ev; cbn; try reflexivity.
    + unfold Placeholder.input_disabled.
      destruct (Placeholder.isSubmitting (Placeholder.ui v)); reflexivity.
    + unfold Placeholder.submit_disabled, Placeholder.handleSubmit.
      destruct (Placeholder.isSubmitting (Placeholder.ui v)); [reflexivity|].
      destruct (Placeholder.editingId (Placeholder.ui v)); reflexivity.
    + unfold Placeholder.cancel_disabled.
      destruct (Placeholder.isSubmitting (Placeholder.ui v)); reflexivity.
    + unfold Placeholder.onInteractOutside_prevents.
      destruct (Placeholder.isSubmitting (Placeholder.ui v)); reflexivity.
    + unfold Placeholder.copy_onClick.
      destruct (navigator_clipboard (Placeholder.env v)); reflexivity.
Qed.

(** X17. Every run of [handleCopyClick], on either path and however the
    copy ends, shows exactly one toast: the success toast together with the
    marker set to the record, or the failure toast with the marker left as
    it was. *)
Theorem X17_one_toast_per_copy (content : string) (promptId : Z) (w : World)
    (answer : forall A, Collaborator A -> Settled A) :
  let after := settle_now answer (handleCopyClick content promptId w) in
  (toasts (env after) = (toasts (env w) ++ [copied_toast])%list /\
   copiedId (ui after) = Some promptId) \/
  (toasts (env after) = (toasts (env w) ++ [copy_failed_toast])%list /\
   copiedId (ui after) = copiedId (ui w)).
Proof.
  unfold handleCopyClick.
  destruct (navigator_clipboard (env w)); cbn.
  - destruct (answer unit (clipboard_writeText content)) as [[]|err]; cbn;
      [left | right]; split; reflexivity.
  - destruct (execCommand_copy (env w)); cbn;
      [left | right | right]; split; reflexivity.
Qed.

End FormFlow.

(** ** Invariants of the mounted component *)

Lemma pending_after_none_due (t : Z) (ts : list Z) :
  due_by t ts = [] -> pending_after t ts = ts.
Proof.
  induction ts as [|d ts IH]; [reflexivity|].
  rewrite due_by_cons, pending_after_cons.
  destruct (decide (d <= t)); [discriminate|].
  intros Hnone. rewrite decide_True by lia. rewrite IH by exact Hnone. reflexivity.
Qed.

Lemma due_by_all (t : Z) (ts : list Z) :
  Forall (fun d => d <= t) ts -> due_by t ts = ts /\ pending_after t ts = [].
Proof.
  induction 1 as [|d ts Hd _ [IH1 IH2]]; [split; reflexivity|].
  rewrite due_by_cons, pending_after_cons.
  rewrite decide_True by exact Hd. rewrite decide_False by lia.
  rewrite IH1, IH2. split; reflexivity.
Qed.

Section Invariants.
Import Wired.

(** [resets_pending] only looks at the marker, the clock and the queue. *)
Lemma resets_pending_frame (w w' : World) :
  copiedId (ui w') = copiedId (ui w) ->
  now (env w') = now (env w) ->
  timers (env w') = timers (env w) ->
  resets_pending w -> resets_pending w'.
Proof.
  unfold resets_pending. intros -> -> ->. tauto.
Qed.

(** Queueing one more reset keeps it, whatever the marker becomes. *)
Lemma resets_pending_queued (w w' : World) :
  now (env w') = now (env w) ->
  timers (env w') = (timers (env w) ++ [now (env w) + COPIED_RESET_DELAY])%list ->
  resets_pending w -> resets_pending w'.
Proof.
  unfold resets_pending. intros -> -> [Hdue _]. split.
  - apply Forall_app. split; [exact Hdue|].
    constructor; [unfold COPIED_RESET_DELAY; lia | constructor].
  - intros _ Hnil. apply app_eq_nil in Hnil. destruct Hnil as [_ Hnil]. discriminate.
Qed.

Lemma resets_pending_elapse (dt : Z) (w : World) :
  0 <= dt -> resets_pending w -> resets_pending (elapse dt w).
Proof.
  unfold resets_pending. intros Hdt [Hdue Hmarked].
  rewrite elapse_now, elapse_timers, elapse_copiedId. split.
  - apply Forall_forall. intros d Hd.
    apply list_elem_of_In, list_elem_of_filter in Hd. destruct Hd as [Hlater Hd].
    rewrite Forall_forall in Hdue. apply list_elem_of_In, Hdue in Hd. lia.
  - destruct (due_by (now (env w) + dt) (timers (env w))) eqn:Hnone; [|congruence].
    intros Hset. rewrite pending_after_none_due by exact Hnone. exact (Hmarked Hset).
Qed.

Lemma resets_pending_event (ev : UserEvent) (w : World) :
  resets_pending w -> resets_pending (step_world (dispatch ev w)).
Proof.
  intros Hinv. destruct ev; cbn;
    try (eapply resets_pending_frame; [| | |exact Hinv]; reflexivity).
  - unfold input_disabled. destruct (isSubmitting (ui w)); exact Hinv.
  - unfold submit_disabled, handleSubmit.
    destruct (isSubmitting (ui w)); [exact Hinv|].
    destruct (editingId (ui w)); exact Hinv.
  - unfold cancel_disabled. destruct (isSubmitting (ui w)); exact Hinv.
  - unfold onInteractOutside_prevents. destruct (isSubmitting (ui w)); exact Hinv.
  - unfold alertCancel_disabled. destruct (isDeleting (ui w)); exact Hinv.
  - unfold alertAction_disabled, handleDeleteConfirm.
    destruct (isDeleting (ui w)); [exact Hinv|].
    destruct (promptToDelete (ui w)); exact Hinv.
  - unfold handleCopyClick.
    destruct (navigator_clipboard (env w)); cbn; [exact Hinv|].
    destruct (execCommand_copy (env w));
      (eapply resets_pending_queued; [| |exact Hinv]; reflexivity).
Qed.

Lemma resets_pending_settle (ev : UserEvent) (w0 : World)
    (answer : forall A, Collaborator A -> Settled A) (w : World) :
  resets_pending w -> resets_pending (resume (dispatch ev w0) answer w).
Proof.
  intros Hinv. destruct ev; cbn; try exact Hinv.
  - destruct (input_disabled w0); exact Hinv.
  - unfold handleSubmit. destruct (submit_disabled w0); [exact Hinv|].
    destruct (editingId (ui w0)); cbn;
      match goal with |- context [answer ?A ?c] => destruct (answer A c) end;
      exact Hinv.
  - destruct (cancel_disabled w0); exact Hinv.
  - destruct (onInteractOutside_prevents w0); exact Hinv.
  - destruct (alertCancel_disabled w0); exact Hinv.
  - unfold handleDeleteConfirm. destruct (alertAction_disabled w0); [exact Hinv|].
    destruct (promptToDelete (ui w0)); cbn; [|exact Hinv].
    match goal with |- context [answer ?A ?c] => destruct (answer A c) end;
      exact Hinv.
  - unfold handleCopyClick. destruct (navigator_clipboard (env w0)); cbn; [|exact Hinv].
    match goal with |- context [answer ?A ?c] => destruct (answer A c) end.
    + eapply resets_pending_queued; [| |exact Hinv]; reflexivity.
    + exact Hinv.
Qed.

(** X18. In every world the mounted component can reach, each pending reset
    is due within [COPIED_RESET_DELAY] and a set marker always has a reset
    pending: the marker cannot stick.  So after [COPIED_RESET_DELAY] or more
    without an event the marker is neutral and no reset is pending. *)
Theorem X18_marker_never_sticks (initialPrompts : list Prompt.t) (b0 : Browser)
    (w : World)
    (Hreach : reachable initialPrompts b0 w) :
  resets_pending w /\
  forall e, COPIED_RESET_DELAY <= e ->
    copiedId (ui (elapse e w)) = None /\ timers (env (elapse e w)) = [].
Proof.
  assert (Hinv : resets_pending w).
  { induction Hreach as [Hquiet | ev w _ IH | ev w0 answer w _ _ _ IH
                         | dt w Hdt _ IH | clipboard outcome w _ IH].
    - split; cbn; [rewrite Hquiet; constructor | congruence].
    - apply resets_pending_event. exact IH.
    - apply resets_pending_settle. exact IH.
    - apply resets_pending_elapse; assumption.
    - eapply resets_pending_frame; [| | |exact IH]; reflexivity. }
  split; [exact Hinv|].
  intros e He. destruct Hinv as [Hdue Hmarked].
  assert (Hall : Forall (fun d => d <= now (env w) + e) (timers (env w))).
  { eapply Forall_impl; [|exact Hdue]. cbn. intros d Hd. lia. }
  apply due_by_all in Hall. destruct Hall as [Hfired Hleft].
  rewrite elapse_copiedId, elapse_timers, Hfired, Hleft. split; [|reflexivity].
  destruct (timers (env w)) eqn:Hts; [|reflexivity].
  destruct (copiedId (ui w)) eqn:Hc; [|reflexivity].
  exfalso. apply Hmarked; congruence.
Qed.

Lemma X18_witness :
  reachable [prompt_1; prompt_3; prompt_5] modern_browser
    (copy_fulfilled prompt_1 mounted) /\
  copiedId (ui (copy_fulfilled prompt_1 mounted)) = Some 1 /\
  copiedId (ui (elapse 2000 (copy_fulfilled prompt_1 mounted))) = None.
Proof.
  assert (Hreach : reachable [prompt_1; prompt_3; prompt_5] modern_browser
                     (copy_fulfilled prompt_1 mounted)).
  { exact (reach_settle _ _ (click_copy prompt_1) mounted clipboard_fulfils mounted
             (reach_mount _ modern_browser eq_refl)
             (reach_mount _ modern_browser eq_refl)). }
  split; [exact Hreach|]. split; [reflexivity|].
  destruct (X18_marker_never_sticks _ _ _ Hreach) as [_ Hquiet].
  apply (Hquiet 2000). unfold COPIED_RESET_DELAY. lia.
Defined.

(** The fallback leaves the children of the body as they were and uses up
    one element identity. *)
Lemma fallback_leaves_body (content : string) (promptId : Z) (w : World) :
  navigator_clipboard (env w) = false ->
  body_allocated (env w) ->
  body (env (step_world (handleCopyClick content promptId w))) = body (env w) /\
  next_node (env (step_world (handleCopyClick content promptId w)))
    = S (next_node (env w)).
Proof.
  intros Hlegacy Halloc. unfold handleCopyClick. rewrite Hlegacy. cbn [negb].
  unfold createElement, browser_createElement.
  set (ta := fallback_textArea _ content).
  pose proof (created_is_fresh "textarea" (env w) Halloc) as Hnew.
  destruct (execCommand_copy (env w)) eqn:Hexec; cbn; rewrite Hexec; cbn;
    (split; [|reflexivity]);
    apply (append_then_remove ta (set_next_node (S (next_node (env w))) (env w)));
    exact Hnew.
Qed.

(** The children of the body, kept with their bookkeeping. *)
Lemma body_kept_event (b0 : Browser) (ev : UserEvent) (w : World) :
  body (env w) = body b0 /\ body_allocated (env w) ->
  body (env (step_world (dispatch ev w))) = body b0 /\
  body_allocated (env (step_world (dispatch ev w))).
Proof.
  intros [Hbody Halloc]. destruct ev; cbn [dispatch]; try (split; assumption).
  - unfold input_disabled. destruct (isSubmitting (ui w)); split; assumption.
  - unfold submit_disabled, handleSubmit.
    destruct (isSubmitting (ui w)); [split; assumption|].
    destruct (editingId (ui w)); split; assumption.
  - unfold cancel_disabled. destruct (isSubmitting (ui w)); split; assumption.
  - unfold onInteractOutside_prevents. destruct (isSubmitting (ui w)); split; assumption.
  - unfold alertCancel_disabled. destruct (isDeleting (ui w)); split; assumption.
  - unfold alertAction_disabled, handleDeleteConfirm.
    destruct (isDeleting (ui w)); [split; assumption|].
    destruct (promptToDelete (ui w)); split; assumption.
  - destruct (navigator_clipboard (env w)) eqn:Hclip.
    + unfold handleCopyClick. rewrite Hclip. split; assumption.
    + destruct (fallback_leaves_body (Prompt.content prompt) (Prompt.id prompt) w
                  Hclip Halloc) as [Hsame Hnext].
      split; [rewrite Hsame; exact Hbody|].
      unfold body_allocated. rewrite Hsame, Hnext.
      eapply Forall_impl; [|exact Halloc]. cbn. intros c Hc. lia.
Qed.

Lemma body_kept_settle (b0 : Browser) (ev : UserEvent) (w0 : World)
    (answer : forall A, Collaborator A -> Settled A) (w : World) :
  body (env w) = body b0 /\ body_allocated (env w) ->
  body (env (resume (dispatch ev w0) answer w)) = body b0 /\
  body_allocated (env (resume (dispatch ev w0) answer w)).
Proof.
  intros Hinv. destruct ev; cbn; try exact Hinv.
  - destruct (input_disabled w0); exact Hinv.
  - unfold handleSubmit. destruct (submit_disabled w0); [exact Hinv|].
    destruct (editingId (ui w0)); cbn;
      match goal with |- context [answer ?A ?c] => destruct (answer A c) end;
      exact Hinv.
  - destruct (cancel_disabled w0); exact Hinv.
  - destruct (onInteractOutside_prevents w0); exact Hinv.
  - destruct (alertCancel_disabled w0); exact Hinv.
  - unfold handleDeleteConfirm. destruct (alertAction_disabled w0); [exact Hinv|].
    destruct (promptToDelete (ui w0)); cbn; [|exact Hinv].
    match goal with |- context [answer ?A ?c] => destruct (answer A c) end;
      exact Hinv.
  - unfold handleCopyClick. destruct (navigator_clipboard (env w0)); cbn; [|exact Hinv].
    match goal with |- context [answer ?A ?c] => destruct (answer A c) end;
      exact Hinv.
Qed.

(** X19. Mounted on a page whose elements are all accounted for, the
    component never changes the children of [document.body]: in every world
    it can reach, after any number of copies on any path, the body holds
    exactly the children it held at mount; no text holder is left behind. *)
Theorem X19_body_is_left_as_found (initialPrompts : list Prompt.t) (b0 : Browser)
    (w : World)
    (Halloc : body_allocated b0)
    (Hreach : reachable initialPrompts b0 w) :
  body (env w) = body b0 /\ body_allocated (env w).
Proof.
  induction Hreach as [Hquiet | ev w _ IH | ev w0 answer w _ _ _ IH
                       | dt w Hdt _ IH | clipboard outcome w _ IH].
  - split; [reflexivity | exact Halloc].
  - apply body_kept_event. exact IH.
  - apply body_kept_settle. exact IH.
  - rewrite elapse_env. exact IH.
  - exact IH.
Qed.

Lemma X19_witness :
  body_allocated (legacy_browser exec_false) /\
  reachable [prompt_1; prompt_3; prompt_5] (legacy_browser exec_false)
    (after_events [click_copy prompt_1; click_copy prompt_3] (mounted_legacy exec_false)) /\
  body (env (after_events [click_copy prompt_1; click_copy prompt_3]
               (mounted_legacy exec_false)))
    = body (legacy_browser exec_false).
Proof.
  assert (Halloc : body_allocated (legacy_browser exec_false)).
  { unfold body_allocated. cbn. repeat constructor. }
  assert (Hreach : reachable [prompt_1; prompt_3; prompt_5] (legacy_browser exec_false)
            (after_events [click_copy prompt_1; click_copy prompt_3]
               (mounted_legacy exec_false))).
  { exact (reach_event _ _ (click_copy prompt_3) _
             (reach_event _ _ (click_copy prompt_1) _
                (reach_mount _ (legacy_browser exec_false) eq_refl))). }
  split; [exact Halloc|]. split; [exact Hreach|].
  exact (proj1 (X19_body_is_left_as_found _ _ _ Halloc Hreach)).
Defined.

End Invariants.

(** ** The copy button of the earlier version *)

Section PlaceholderCopy.
Import Placeholder.

Lemma placeholder_clear_all_copiedId (l : list Z) (v : World) :
  copiedId (ui (fold_left (fun v' _ => setCopiedId None v') l v))
  = match l with [] => copiedId (ui v) | _ :: _ => None end.
Proof.
  destruct l as [|d l]; [reflexivity|]. cbn.
  generalize (setCopiedId None v) (eq_refl : copiedId (ui (setCopiedId None v)) = None).
  induction l as [|d' l IH]; intros v0 Hv0; [exact Hv0|].
  cbn. apply IH. reflexivity.
Qed.

Lemma placeholder_elapse_copiedId (e : Z) (v : World) :
  copiedId (ui (elapse e v))
  = match due_by (now (env v) + e) (timers (env v)) with
    | [] => copiedId (ui v)
    | _ :: _ => None
    end.
Proof. unfold elapse, run_timers_until. cbn. apply placeholder_clear_all_copiedId. Qed.

(** X20. In the earlier version a click on the copy button, with the
    clipboard API present, marks the record and queues the reset at once and
    shows no toast, whatever becomes of the write, a rejection included; with
    no reset pending before, the marker stays for [COPIED_RESET_DELAY] and is
    neutral afterwards.  Without the clipboard API the click changes
    nothing: there is no fallback. *)
Theorem X20_placeholder_copy_ignores_outcome (v v0 : World) (p : Prompt.t)
    (answer : forall A, Collaborator A -> Settled A)
    (Hclip : navigator_clipboard (env v) = true)
    (Hquiet : timers (env v) = [])
    (Hnone : navigator_clipboard (env v0) = false) :
  let after := settle_now answer (dispatch (click_copy p) v) in
  copiedId (ui after) = Some (Prompt.id p) /\
  timers (env after) = [now (env v) + COPIED_RESET_DELAY] /\
  toasts (env after) = toasts (env v) /\
  (forall e, 0 <= e < COPIED_RESET_DELAY ->
     copiedId (ui (elapse e after)) = Some (Prompt.id p)) /\
  (forall e, COPIED_RESET_DELAY <= e -> copiedId (ui (elapse e after)) = None) /\
  dispatch (click_copy p) v0 = Done v0.
Proof.
  intros after.
  assert (Hafter : after = (v |> setCopiedId (Some (Prompt.id p))
                              |> setTimeout COPIED_RESET_DELAY)).
  { unfold after. cbn. unfold copy_onClick. rewrite Hclip. reflexivity. }
  assert (Htimers : timers (env after) = [now (env v) + COPIED_RESET_DELAY])
    by (rewrite Hafter; cbn; rewrite Hquiet; reflexivity).
  assert (Hnow : now (env after) = now (env v)) by (rewrite Hafter; reflexivity).
  split; [rewrite Hafter; reflexivity|].
  split; [exact Htimers|].
  split; [rewrite Hafter; reflexivity|].
  split; [|split].
  - intros e He. rewrite placeholder_elapse_copiedId, Htimers, Hnow, due_by_cons.
    case_decide; [lia|]. rewrite Hafter. reflexivity.
  - intros e He. rewrite placeholder_elapse_copiedId, Htimers, Hnow, due_by_cons.
    case_decide; [reflexivity | lia].
  - cbn. unfold copy_onClick. rewrite Hnone. reflexivity.
Qed.

Lemma X20_witness :
  navigator_clipboard (env (forget mounted)) = true /\
  timers (env (forget mounted)) = [] /\
  navigator_clipboard (env (forget (mounted_legacy exec_true))) = false /\
  copiedId (ui (settle_now (all_rejected NotAnError)
                  (dispatch (click_copy prompt_1) (forget mounted)))) = Some 1 /\
  dispatch (click_copy prompt_1) (forget (mounted_legacy exec_true))
    = Done (forget (mounted_legacy exec_true)).
Proof.
  split; [reflexivity|]. split; [reflexivity|]. split; [reflexivity|].
  destruct (X20_placeholder_copy_ignores_outcome (forget mounted)
              (forget (mounted_legacy exec_true)) prompt_1 (all_rejected NotAnError)
              eq_refl eq_refl eq_refl) as (Hmark & _ & _ & _ & _ & Hnothing).
  split; [exact Hmark | exact Hnothing].
Defined.

End PlaceholderCopy.
